(** * ToTheMoon: the candle download and indicator pipeline

    A shallow embedding of [src/data/data_download.py].

    - Python floats are modelled by [fval]: exact rationals extended with
      the IEEE special values NaN, +inf and -inf.  Rounding, overflow of a
      finite result and signed zeros are abstracted away; division by
      zero, NaN propagation and the infinities behave as numpy's float64
      does.  The properties of the indicators are therefore stated on the
      columns of the returned table (what one column is, given another),
      or on which entries are missing.
    - A pandas [DataFrame] is an ordered association list of named columns.
    - Exceptions are an explicit outcome; printing, HTTP requests, file
      writes and plots are recorded as a trace of events.
    - What the program takes from its libraries and from the outside world
      (the HTTP answer, [json.loads], [float] on a string, the square root,
      the text of a number in a CSV field, whether a file can be written)
      is a record [Env] that every effectful definition is parameterised
      by. *)

From Stdlib Require Import String Ascii List Bool Arith ZArith QArith Qabs Lia Lqa.
Import ListNotations.

Local Close Scope Q_scope.
Local Open Scope string_scope.
Local Open Scope list_scope.

(* ================================================================= *)
(** ** Exceptions and the effect monad *)

Inductive exn : Type :=
| ConnectionError
| JSONDecodeError
| TypeError
| IndexError
| KeyError
| ValueError
| OverflowError
| OSError.

Inductive outcome (A : Type) : Type :=
| Ok (a : A)
| Raise (e : exn).
Arguments Ok {A} a.
Arguments Raise {A} e.

Section Monad.
Variable event : Type.

(** A computation emits events and then returns or raises. *)
Definition M (A : Type) : Type := (list event * outcome A)%type.

Definition ret {A} (a : A) : M A := ([], Ok a).
Definition raise {A} (e : exn) : M A := ([], Raise e).
Definition emit (ev : event) : M unit := ([ev], Ok tt).

Definition bind {A B} (m : M A) (k : A -> M B) : M B :=
  match m with
  | (t, Ok a) => let (t', r) := k a in (t ++ t', r)
  | (t, Raise e) => (t, Raise e)
  end.

(** [try: body except: handler] with a bare [except]. *)
Definition try_except {A} (body handler : M A) : M A :=
  match body with
  | (t, Ok a) => (t, Ok a)
  | (t, Raise _) => let (t', r) := handler in (t ++ t', r)
  end.

(** [for x in xs: body x]. *)
Fixpoint for_each {A} (xs : list A) (body : A -> M unit) : M unit :=
  match xs with
  | [] => ret tt
  | x :: rest => bind (body x) (fun _ => for_each rest body)
  end.

(** A loop that threads an accumulator, [for x in xs: acc = body acc x]. *)
Fixpoint fold_m {A S} (body : S -> A -> M S) (xs : list A) (acc : S) : M S :=
  match xs with
  | [] => ret acc
  | x :: rest => bind (body acc x) (fold_m body rest)
  end.

Definition lift_outcome {A} (o : outcome A) : M A := ([], o).
End Monad.

Arguments ret {event A} a.
Arguments raise {event A} e.
Arguments emit {event} ev.
Arguments bind {event A B} m k.
Arguments try_except {event A} body handler.
Arguments for_each {event A} xs body.
Arguments fold_m {event A S} body xs acc.
Arguments lift_outcome {event A} o.

Declare Scope py_scope.
Delimit Scope py_scope with py.
Notation "x <- m ;; k" := (bind m (fun x => k))
  (at level 61, m at next level, right associativity) : py_scope.
Notation "m ;;; k" := (bind m (fun _ => k))
  (at level 61, right associativity) : py_scope.

(* ================================================================= *)
(** ** Strings *)

(** [s.index(c)] for a one-character needle: the first position of [c],
    [None] where Python raises [ValueError]. *)
Fixpoint str_index (c : ascii) (s : string) : option nat :=
  match s with
  | EmptyString => None
  | String a rest =>
      if Ascii.eqb a c then Some 0
      else match str_index c rest with
           | Some k => Some (S k)
           | None => None
           end
  end.

(** [s[:k]]. *)
Fixpoint str_take (k : nat) (s : string) : string :=
  match k, s with
  | S k', String a rest => String a (str_take k' rest)
  | _, _ => EmptyString
  end.

Fixpoint str_mem (c : ascii) (s : string) : bool :=
  match s with
  | EmptyString => false
  | String a rest => Ascii.eqb a c || str_mem c rest
  end.

Definition dot : ascii := "."%char.

(** [flatten]: the groups of [--pairs] concatenated. *)
Definition flatten {A} (groups : list (list A)) : list A :=
  match groups with
  | [] => []
  | _ => List.concat groups
  end.

Definition log_success_text (name : string) : string :=
  "Initial indicator values for " ++ name ++ " is ready".

Definition log_failure_text (name : string) : string :=
  "Initial indicator values for " ++ name ++ " was not found".

(** [fname[:fname.index(".")]]. *)
Definition remove_extension (fname : string) : outcome string :=
  match str_index dot fname with
  | Some k => Ok (str_take k fname)
  | None => Raise ValueError
  end.

Definition extension : string := ".csv".

Definition klines_url (fname : string) : string :=
  "https://api.binance.com/api/v3/klines?symbol=" ++ fname ++ "&interval=1m".

(* ================================================================= *)
(** ** Float values *)

(** A float64 value: NaN, an infinity, or a finite number.  On finite
    numbers the operations are those of the rationals: the rounding of
    float64, and the overflow of a finite result to an infinity, are left
    out.  Finite results are kept in lowest terms, so that equal numbers
    are equal terms. *)
Inductive fval : Type :=
| NaN
| NInf
| PInf
| Fin (q : Q).

Definition fin_z (z : Z) : fval := Fin (inject_Z z).
Definition fin_nat (n : nat) : fval := Fin (inject_Z (Z.of_nat n)).

(** What a rolling window counts as no observation: NaN, and the
    infinities, which pandas turns into NaN before it aggregates. *)
Definition no_observation (x : fval) : bool :=
  match x with Fin _ => false | _ => true end.


Definition Qltb (a b : Q) : bool := negb (Qle_bool b a).

(** [x < y]; false as soon as one side is NaN. *)
Definition flt (x y : fval) : bool :=
  match x, y with
  | NaN, _ | _, NaN => false
  | _, NInf => false
  | NInf, _ => true
  | PInf, _ => false
  | Fin _, PInf => true
  | Fin a, Fin b => Qltb a b
  end.

Definition fgt (x y : fval) : bool := flt y x.

(** [x <= y]; false as soon as one side is NaN. *)
Definition fle (x y : fval) : bool :=
  match x, y with
  | NaN, _ | _, NaN => false
  | NInf, _ => true
  | _, PInf => true
  | _, NInf => false
  | PInf, _ => false
  | Fin a, Fin b => Qle_bool a b
  end.

Definition fabs (x : fval) : fval :=
  match x with
  | NaN => NaN
  | NInf | PInf => PInf
  | Fin a => Fin (Qred (Qabs a))
  end.

Definition fadd (x y : fval) : fval :=
  match x, y with
  | NaN, _ | _, NaN => NaN
  | PInf, NInf | NInf, PInf => NaN
  | PInf, _ | _, PInf => PInf
  | NInf, _ | _, NInf => NInf
  | Fin a, Fin b => Fin (Qred (a + b)%Q)
  end.

Definition fsub (x y : fval) : fval :=
  match x, y with
  | NaN, _ | _, NaN => NaN
  | PInf, PInf | NInf, NInf => NaN
  | PInf, _ | _, NInf => PInf
  | NInf, _ | _, PInf => NInf
  | Fin a, Fin b => Fin (Qred (a - b)%Q)
  end.

(** The infinity of the sign of [a], NaN for zero: [inf * a]. *)
Definition inf_times (pos : bool) (a : Q) : fval :=
  if Qeq_bool a 0%Q then NaN
  else if Qltb 0%Q a then (if pos then PInf else NInf)
       else (if pos then NInf else PInf).

Definition fmul (x y : fval) : fval :=
  match x, y with
  | NaN, _ | _, NaN => NaN
  | PInf, PInf | NInf, NInf => PInf
  | PInf, NInf | NInf, PInf => NInf
  | PInf, Fin a | Fin a, PInf => inf_times true a
  | NInf, Fin a | Fin a, NInf => inf_times false a
  | Fin a, Fin b => Fin (Qred (a * b)%Q)
  end.

(** numpy's division: [x / 0] is an infinity of the sign of [x], [0 / 0]
    and [inf / inf] are NaN, nothing raises. *)
Definition fdiv (x y : fval) : fval :=
  match x, y with
  | NaN, _ | _, NaN => NaN
  | (PInf | NInf), (PInf | NInf) => NaN
  | Fin _, (PInf | NInf) => Fin 0%Q
  | PInf, Fin b => if Qltb b 0%Q then NInf else PInf
  | NInf, Fin b => if Qltb b 0%Q then PInf else NInf
  | Fin a, Fin b =>
      if Qeq_bool b 0%Q then inf_times true a
      else Fin (Qred (a / b)%Q)
  end.

Definition fsum (xs : list fval) : fval := fold_left fadd xs (Fin 0%Q).

(** [x == 0] on floats (false on NaN). *)
Definition fzero (x : fval) : bool :=
  match x with
  | Fin q => Qeq_bool q 0%Q
  | _ => false
  end.

(** A finite number that is not negative. *)
Definition nonneg (x : fval) : Prop := exists q, x = Fin q /\ (0 <= q)%Q.

(* ================================================================= *)
(** ** Series: the pandas operations the program calls *)

Definition series := list fval.

Definition at_ (xs : series) (i : nat) : fval := nth i xs NaN.

(** [x.diff()]: the first entry is missing, entry [i] is [x[i] - x[i-1]]. *)
Definition diff (xs : series) : series :=
  map (fun i => match i with
                | O => NaN
                | S j => fsub (at_ xs i) (at_ xs j)
                end)
      (seq 0 (length xs)).

(** [s.loc[mask] = v] where [mask] is [p] applied to the same series. *)
Definition set_where (p : fval -> bool) (v : fval) (xs : series) : series :=
  map (fun x => if p x then v else x) xs.

(** The [period] samples that end at index [i]. *)
Definition window (period i : nat) (xs : series) : series :=
  firstn period (skipn (S i - period) xs).

(** [x.rolling(window=period).<agg>()]: [min_periods] defaults to the
    window length, so an entry is missing until the window is full and
    whenever the window holds a missing or an infinite value.  The
    aggregate of a full window is taken over that window alone; pandas
    carries a running sum from window to window, which is the same number
    in exact arithmetic. *)
Definition rolling (agg : series -> fval) (period : nat) (xs : series) : series :=
  map (fun i =>
         if (S i <? period)%nat then NaN
         else let w := window period i xs in
              if existsb no_observation w then NaN else agg w)
      (seq 0 (length xs)).

Definition mean (w : series) : fval := fdiv (fsum w) (fin_nat (length w)).

Section Std.
Variable sqrt_q : Q -> Q.

Definition fsqrt (x : fval) : fval :=
  match x with
  | NaN | NInf => NaN
  | PInf => PInf
  | Fin a => if Qltb a 0%Q then NaN else Fin (Qred (sqrt_q a))
  end.

(** The sample standard deviation (pandas' default [ddof=1]). *)
Definition std (w : series) : fval :=
  let m := mean w in
  let sq := map (fun x => fmul (fsub x m) (fsub x m)) w in
  fsqrt (fdiv (fsum sq) (fin_nat (length w - 1))).
End Std.

(** Element-wise operations of two series and of a scalar with a series. *)
Fixpoint zip_with (f : fval -> fval -> fval) (xs ys : series) : series :=
  match xs, ys with
  | x :: xs', y :: ys' => f x y :: zip_with f xs' ys'
  | _, _ => []
  end.

(* ================================================================= *)
(** ** JSON values and the Python operations applied to them *)

#[local] Unset Elimination Schemes.
Inductive json : Type :=
| JNull
| JBool (b : bool)
| JNum (q : Q)  (* an [int], or a [float] that is a number *)
| JStr (s : string)
| JArr (items : list json)
| JObj (fields : list (string * json)).
#[local] Set Elimination Schemes.

Fixpoint chars (s : string) : list string :=
  match s with
  | EmptyString => []
  | String a rest => String a EmptyString :: chars rest
  end.

(** [for record in v]: a list yields its items, a dict its keys, a string
    its characters; the other values are not iterable. *)
Definition py_iter (v : json) : outcome (list json) :=
  match v with
  | JArr items => Ok items
  | JObj fields => Ok (map (fun kv => JStr (fst kv)) fields)
  | JStr s => Ok (map JStr (chars s))
  | JNull | JBool _ | JNum _ => Raise TypeError
  end.

(** [v[i]] for an integer [i]: a dict decoded from JSON has string keys
    only, so an integer key is never found. *)
Definition py_getitem (v : json) (i : nat) : outcome json :=
  match v with
  | JArr items =>
      match nth_error items i with Some x => Ok x | None => Raise IndexError end
  | JStr s =>
      match nth_error (chars s) i with
      | Some c => Ok (JStr c)
      | None => Raise IndexError
      end
  | JObj _ => Raise KeyError
  | JNull | JBool _ | JNum _ => Raise TypeError
  end.

(* ================================================================= *)
(** ** Data frames *)

(** A cell holds a float, or any other Python object (kept as decoded). *)
Inductive cell : Type :=
| CNum (x : fval)
| CObj (j : json).

Definition missing : cell := CNum NaN.

Definition column := list cell.
Definition DataFrame := list (string * column).

(** The cell [DataFrame.append] stores for a value of a row: a number
    goes into the float column, [None] becomes NaN, anything else is kept
    as an object. *)
Definition to_cell (j : json) : cell :=
  match j with
  | JNum q => CNum (Fin q)
  | JNull => CNum NaN
  | _ => CObj j
  end.

Fixpoint assoc {A} (name : string) (l : list (string * A)) : option A :=
  match l with
  | [] => None
  | (n, a) :: rest => if String.eqb n name then Some a else assoc name rest
  end.

Definition has_key {A} (name : string) (l : list (string * A)) : bool :=
  match assoc name l with Some _ => true | None => false end.

Definition columns (df : DataFrame) : list string := map fst df.

Definition nrows (df : DataFrame) : nat :=
  match df with
  | [] => 0
  | (_, col) :: _ => length col
  end.

(** [df[name] = col]: an existing column is replaced where it stands, a new
    one is added last. *)
Fixpoint set_col (name : string) (col : column) (df : DataFrame) : DataFrame :=
  match df with
  | [] => [(name, col)]
  | (n, c) :: rest =>
      if String.eqb n name then (name, col) :: rest
      else (n, c) :: set_col name col rest
  end.

Definition setf (name : string) (xs : series) (df : DataFrame) : DataFrame :=
  set_col name (map CNum xs) df.

Definition cell_float (c : cell) : outcome fval :=
  match c with
  | CNum x => Ok x
  | CObj _ => Raise TypeError
  end.

Fixpoint as_floats (col : column) : outcome series :=
  match col with
  | [] => Ok []
  | c :: rest =>
      match cell_float c, as_floats rest with
      | Ok x, Ok xs => Ok (x :: xs)
      | Raise e, _ => Raise e
      | _, Raise e => Raise e
      end
  end.

(** [df.append(row, ignore_index=True)] for a dict [row]. *)
Definition append_row (df : DataFrame) (row : list (string * cell)) : DataFrame :=
  let n := nrows df in
  (map (fun nc : string * column =>
          (fst nc,
           snd nc ++ [match assoc (fst nc) row with
                      | Some c => c
                      | None => missing
                      end]))
       df
   ++ map (fun kv : string * cell => (fst kv, repeat missing n ++ [snd kv]))
          (filter (fun kv : string * cell => negb (has_key (fst kv) df)) row))%list.

(** [df.iloc[0:n]]. *)
Definition iloc_head (n : nat) (df : DataFrame) : DataFrame :=
  map (fun nc : string * column => (fst nc, firstn n (snd nc))) df.

(** The cell of column [name] at row [i]. *)
Definition cell_at (df : DataFrame) (name : string) (i : nat) : option cell :=
  match assoc name df with
  | Some col => nth_error col i
  | None => None
  end.

(* ================================================================= *)
(** ** The environment and the events *)

Record Env : Type := {
  (** [requests.get(url).text]; [None] when the request raises. *)
  http_text : string -> option string;
  (** [json.loads]; [None] when the text is not JSON. *)
  json_loads : string -> option json;
  (** [float] on a string; [None] when it raises [ValueError]. *)
  float_of_string : string -> option fval;
  (** The square root of a non-negative number. *)
  sqrt_q : Q -> Q;
  (** The text of a finite number and of a non-float object in a CSV field. *)
  repr_float : Q -> string;
  repr_obj : json -> string;
  (** Whether writing this text to this path succeeds. *)
  fs_write : string -> string -> bool
}.

Inductive event : Type :=
| Get (url : string)
| PrintLine (s : string)
| PrintFrame (df : DataFrame)
| PrintValue (label : string) (v : cell)
| WriteFile (path : string) (text : string)
| Plot (curves : list (string * column)).

Definition IO := M event.

(** Every event a computation emits satisfies [P]. *)
Definition emits_only {A} (P : event -> Prop) (m : IO A) : Prop :=
  Forall P (fst m).



Local Open Scope py_scope.

Definition print (s : string) : IO unit := emit (PrintLine s).
Definition log_success (name : string) : IO unit := print (log_success_text name).
Definition log_failure (name : string) : IO unit := print (log_failure_text name).

(** [df[name]]. *)
Definition getitem (df : DataFrame) (name : string) : IO column :=
  match assoc name df with
  | Some col => ret col
  | None => raise KeyError
  end.

(** [df[name]] used in float arithmetic. *)
Definition getf (df : DataFrame) (name : string) : IO series :=
  col <- getitem df name ;; lift_outcome (as_floats col).

(** [s.iloc[-1]]. *)
Definition iloc_last (col : column) : IO cell :=
  match col with
  | [] => raise IndexError
  | c :: rest => ret (last rest c)
  end.

(** [df[[n1, n2, ...]]]. *)
Fixpoint select (names : list string) (df : DataFrame) : IO DataFrame :=
  match names with
  | [] => ret []
  | n :: rest =>
      col <- getitem df n ;;
      out <- select rest df ;;
      ret ((n, col) :: out)
  end.

(* ================================================================= *)
(** ** The program *)

Definition show_graph : bool := false.

(** The integers from [2^1024 - 2^970] on round to a float that does not
    exist. *)
Definition float_limit : Q := inject_Z (2 ^ 1024 - 2 ^ 970).

Definition f100 : fval := fin_z 100.
Definition f1 : fval := fin_z 1.
Definition f2 : fval := fin_z 2.
Definition f0 : fval := fin_z 0.

(** [100 - (100 / (1 + rs))]. *)
Definition rsi_of_rs (rs : fval) : fval := fsub f100 (fdiv f100 (fadd f1 rs)).

Definition set_RSI (new_dataset : DataFrame) (period : nat) : IO DataFrame :=
  close <- getf new_dataset "close" ;;
  let new_dataset := setf "Diff" (diff close) new_dataset in
  d <- getitem new_dataset "Diff" ;;
  let new_dataset := set_col "Up" d new_dataset in
  up <- getf new_dataset "Up" ;;
  let new_dataset := setf "Up" (set_where (fun x => flt x f0) f0 up) new_dataset in
  d <- getitem new_dataset "Diff" ;;
  let new_dataset := set_col "Down" d new_dataset in
  down <- getf new_dataset "Down" ;;
  let new_dataset := setf "Down" (set_where (fun x => fgt x f0) f0 down) new_dataset in
  down <- getf new_dataset "Down" ;;
  let new_dataset := setf "Down" (map fabs down) new_dataset in
  up <- getf new_dataset "Up" ;;
  let new_dataset := setf "avg_up" (rolling mean period up) new_dataset in
  down <- getf new_dataset "Down" ;;
  let new_dataset := setf "avg_down" (rolling mean period down) new_dataset in
  avg_up <- getf new_dataset "avg_up" ;;
  avg_down <- getf new_dataset "avg_down" ;;
  let new_dataset := setf "RS" (zip_with fdiv avg_up avg_down) new_dataset in
  rs <- getf new_dataset "RS" ;;
  let new_dataset := setf "RSI" (map rsi_of_rs rs) new_dataset in
  emit (PrintFrame (iloc_head 21 new_dataset)) ;;;
  rsi <- getitem new_dataset "RSI" ;;
  v <- iloc_last rsi ;;
  emit (PrintValue "RSI" v) ;;;
  ret new_dataset.

Section Program.
Variable env : Env.

(** [requests.get(url, verify=False).text]. *)
Definition requests_get (url : string) : IO string :=
  emit (Get url) ;;;
  match http_text env url with
  | Some text => ret text
  | None => raise ConnectionError
  end.

Definition loads (text : string) : IO json :=
  match json_loads env text with
  | Some v => ret v
  | None => raise JSONDecodeError
  end.

(** [float(v)]: an [int] too large for a float raises [OverflowError]. *)
Definition py_float (v : json) : outcome fval :=
  match v with
  | JNum q =>
      if Qltb (Qabs q) float_limit then Ok (Fin q) else Raise OverflowError
  | JBool b => Ok (if b then f1 else f0)
  | JStr s =>
      match float_of_string env s with
      | Some x => Ok x
      | None => Raise ValueError
      end
  | JNull | JArr _ | JObj _ => Raise TypeError
  end.

Definition fill_with_latest_data (dataset : DataFrame) (fname_ext : string)
  : IO DataFrame :=
  fname <- lift_outcome (remove_extension fname_ext) ;;
  let base_url := klines_url fname in
  let unix_idx := 0 in
  let close_idx := 4 in
  text <- requests_get base_url ;;
  response_dict <- loads text ;;
  records <- lift_outcome (py_iter response_dict) ;;
  fold_m (fun dataset record =>
            u <- lift_outcome (py_getitem record unix_idx) ;;
            c <- lift_outcome (py_getitem record close_idx) ;;
            x <- lift_outcome (py_float c) ;;
            ret (append_row dataset [("unix", to_cell u); ("close", CNum x)]))
         records dataset.

Definition set_BB (new_dataset : DataFrame) (period : nat) : IO DataFrame :=
  close <- getf new_dataset "close" ;;
  let new_dataset := setf "20MA" (rolling mean period close) new_dataset in
  close <- getf new_dataset "close" ;;
  let new_dataset :=
    setf "SD" (rolling (std (sqrt_q env)) period close) new_dataset in
  ma <- getf new_dataset "20MA" ;;
  sd <- getf new_dataset "SD" ;;
  let new_dataset :=
    setf "upperband" (zip_with fadd ma (map (fmul f2) sd)) new_dataset in
  ma <- getf new_dataset "20MA" ;;
  sd <- getf new_dataset "SD" ;;
  let new_dataset :=
    setf "lowerband" (zip_with fsub ma (map (fmul f2) sd)) new_dataset in
  ub <- getitem new_dataset "upperband" ;;
  v <- iloc_last ub ;;
  emit (PrintValue "Upperband" v) ;;;
  lb <- getitem new_dataset "lowerband" ;;
  v <- iloc_last lb ;;
  emit (PrintValue "Lowerband" v) ;;;
  ret new_dataset.

Definition output_columns : list string :=
  ["unix"; "RSI"; "lowerband"; "upperband"; "close"].

Definition feature_engineering (dataset : DataFrame) : IO DataFrame :=
  let period := 14 in
  new_dataset <- set_RSI dataset period ;;
  let per := 21 in
  new_dataset <- set_BB new_dataset per ;;
  select output_columns new_dataset.

(** *** The CSV writer, [DataFrame.to_csv(path, index=False)] *)

(** pandas' default [na_rep] is the empty string. *)
Definition csv_field (c : cell) : string :=
  match c with
  | CNum NaN => ""
  | CNum PInf => "inf"
  | CNum NInf => "-inf"
  | CNum (Fin q) => repr_float env q
  | CObj j => repr_obj env j
  end.

Definition csv_row (df : DataFrame) (i : nat) : list string :=
  map (fun nc : string * column => csv_field (nth i (snd nc) missing)) df.

Definition csv_rows (df : DataFrame) : list (list string) :=
  columns df :: map (csv_row df) (seq 0 (nrows df)).

Definition newline : string := String (ascii_of_nat 10) EmptyString.

Definition csv_line (fields : list string) : string :=
  (String.concat "," fields ++ newline)%string.

Definition csv_text (df : DataFrame) : string :=
  String.concat "" (map csv_line (csv_rows df)).

Definition to_csv (df : DataFrame) (path : string) : IO unit :=
  let text := csv_text df in
  if fs_write env path text then emit (WriteFile path text)
  else raise OSError.

Definition clean_dataset (filename : string) : IO (option DataFrame) :=
  let dataset : DataFrame := [] in
  dataset <- fill_with_latest_data dataset filename ;;
  dataset <- feature_engineering dataset ;;
  written <- try_except
               (to_csv dataset filename ;;; log_success filename ;;; ret true)
               (log_failure filename ;;; ret false) ;;
  if written : bool then ret (Some dataset) else ret None.

(** The plots start with [len(values)], which raises [TypeError] on
    [None]. *)
Definition BB_plot (values : option DataFrame) : IO unit :=
  match values with
  | None => raise TypeError
  | Some df =>
      y_axis_one <- getitem df "lowerband" ;;
      y_axis_two <- getitem df "upperband" ;;
      y_axis_thr <- getitem df "close" ;;
      emit (Plot [("Lower", y_axis_one); ("Upper", y_axis_two);
                  ("Value", y_axis_thr)])
  end.

Definition RSI_plot (values : option DataFrame) : IO unit :=
  match values with
  | None => raise TypeError
  | Some df =>
      y_axis_one <- getitem df "RSI" ;;
      emit (Plot [("RSI", y_axis_one)])
  end.

Definition time_dict : list (string * string) :=
  [("hour", "1h"); ("min", "minute"); ("day", "d")].

(** The body of the loop of [download_data]. *)
Definition process_pair (pair : string) : IO unit :=
  let filename := (pair ++ extension)%string in
  values <- clean_dataset filename ;;
  if show_graph then
    print "RSI" ;;; RSI_plot values ;;; print "BB" ;;; BB_plot values
  else ret tt.

Definition download_data (pairs : list string) (freq : string) : IO unit :=
  frequency <- match assoc freq time_dict with
               | Some f => ret f
               | None => raise KeyError
               end ;;
  for_each pairs process_pair.

(** The script body, after [argparse]: [pairs] is [None] when [--pairs]
    was not given. *)
Definition main (pairs : option (list (list string))) (freq : string) : IO unit :=
  match pairs with
  | Some groups => download_data (flatten groups) freq
  | None => ret tt
  end.
End Program.

(* ================================================================= *)
(** ** The columns of the indicator engine as functions of the closes

    [set_RSI] and [set_BB] read and write their columns one assignment at
    a time; these are the series each assignment stores, so that a column
    of the result can be named in a statement. *)

Definition up_of (d : fval) : fval := if flt d f0 then f0 else d.

Definition down_of (d : fval) : fval := fabs (if fgt d f0 then f0 else d).

Definition up_series (close : series) : series :=
  set_where (fun x => flt x f0) f0 (diff close).

Definition down_series (close : series) : series :=
  map fabs (set_where (fun x => fgt x f0) f0 (diff close)).

Definition avg_up_series (period : nat) (close : series) : series :=
  rolling mean period (up_series close).

Definition avg_down_series (period : nat) (close : series) : series :=
  rolling mean period (down_series close).

Definition rs_series (period : nat) (close : series) : series :=
  zip_with fdiv (avg_up_series period close) (avg_down_series period close).

Definition rsi_series (period : nat) (close : series) : series :=
  map rsi_of_rs (rs_series period close).

(** The price change into sample [j+1] of a finite series. *)
Definition change (qs : list Q) (j : nat) : Q :=
  Qred (nth (S j) qs 0%Q - nth j qs 0%Q).

Definition rsi_frame (df : DataFrame) (period : nat) (close : series) : DataFrame :=
  setf "RSI" (rsi_series period close)
    (setf "RS" (rs_series period close)
       (setf "avg_down" (avg_down_series period close)
          (setf "avg_up" (avg_up_series period close)
             (setf "Down" (down_series close)
                (setf "Up" (up_series close)
                   (setf "Diff" (diff close) df)))))).

Section Bands.
Variable env : Env.

Definition ma_series (period : nat) (close : series) : series :=
  rolling mean period close.

Definition sd_series (period : nat) (close : series) : series :=
  rolling (std (sqrt_q env)) period close.

Definition upper_series (period : nat) (close : series) : series :=
  zip_with fadd (ma_series period close) (map (fmul f2) (sd_series period close)).

Definition lower_series (period : nat) (close : series) : series :=
  zip_with fsub (ma_series period close) (map (fmul f2) (sd_series period close)).

Definition bb_frame (df : DataFrame) (period : nat) (close : series) : DataFrame :=
  setf "lowerband" (lower_series period close)
    (setf "upperband" (upper_series period close)
       (setf "SD" (sd_series period close)
          (setf "20MA" (ma_series period close) df))).
End Bands.

(** The table of candles with the timestamps [unix] and the closes
    [close], as [fill_with_latest_data] builds it row by row. *)
Definition candle_table (unix : column) (close : series) : DataFrame :=
  [("unix", unix); ("close", map CNum close)].

(** A record the loop of [fill_with_latest_data] accepts: it has an entry
    0, the timestamp [u], and an entry 4 that [float] turns into [x]. *)
Definition decodes (env : Env) (record : json) (ux : json * fval) : Prop :=
  exists c,
    py_getitem record 0 = Ok (fst ux) /\
    py_getitem record 4 = Ok c /\
    py_float env c = Ok (snd ux).

(** The table [feature_engineering] returns for the timestamps [unix] and
    the closes [close]. *)
Definition feature_frame (env : Env) (unix : column) (close : series) : DataFrame :=
  [("unix", unix);
   ("RSI", map CNum (rsi_series 14 close));
   ("lowerband", map CNum (lower_series env 21 close));
   ("upperband", map CNum (upper_series env 21 close));
   ("close", map CNum close)].

(** The columns the indicator engine computes on the way. *)
Definition intermediate_columns : list string :=
  ["Diff"; "Up"; "Down"; "avg_up"; "avg_down"; "RS"; "20MA"; "SD"].

(* ================================================================= *)
(** ** Sample inputs *)

(** A table of candles: row [k] has timestamp [k] and the [k]-th close. *)
Definition candle_frame (close : series) : DataFrame :=
  [("unix", map (fun k => CNum (fin_nat k)) (seq 0 (length close)));
   ("close", map CNum close)].

(** The closes 1, 2, ..., 35. *)
Definition ramp_close : series := map (fun k => fin_nat (S k)) (seq 0 35).

(** Sixteen candles that all close at 7. *)
Definition flat_close : series := repeat (fin_z 7) 16.

(** Sixteen closes that go up and down. *)
Definition wavy_prices : list Q :=
  [10; 11; 9; 12; 12; 13; 8; 9; 10; 11; 12; 11; 10; 14; 15; 13]%Q.

(** A kline record as the exchange sends it: open time, open, high, low,
    close, ... *)
Definition kline (t c : Z) : json :=
  JArr [JNum (inject_Z t); JStr "o"; JStr "h"; JStr "l"; JNum (inject_Z c);
        JStr "v"].

Definition ramp_klines : json :=
  JArr (map (fun k => kline (Z.of_nat k) (Z.of_nat (S k))) (seq 0 35)).

Definition flat_klines : json :=
  JArr (map (fun k => kline (Z.of_nat k) 7) (seq 0 16)).

(** The error object the exchange answers for an unknown symbol. *)
Definition invalid_symbol : json :=
  JObj [("code", JNum (inject_Z (-1121))); ("msg", JStr "Invalid symbol.")].

(** A square root rounded down to six decimals. *)
Definition sqrt_approx (q : Q) : Q :=
  Z.sqrt (Qnum q * Zpos (Qden q) * 10 ^ 12) # (Qden q * 1000000).

(** An exchange that knows the symbols RAMP and FLAT, answers the error
    object for BAD and a page that is not JSON for HTML, and is
    unreachable for anything else; FLAT.csv cannot be written. *)
Definition demo_env : Env := {|
  http_text := fun url =>
    if String.eqb url (klines_url "RAMP") then Some "ramp"
    else if String.eqb url (klines_url "FLAT") then Some "flat"
    else if String.eqb url (klines_url "BAD") then Some "bad"
    else if String.eqb url (klines_url "HTML") then Some "<html>"
    else None;
  json_loads := fun text =>
    if String.eqb text "ramp" then Some ramp_klines
    else if String.eqb text "flat" then Some flat_klines
    else if String.eqb text "bad" then Some invalid_symbol
    else None;
  float_of_string := fun _ => None;
  sqrt_q := sqrt_approx;
  repr_float := fun q =>
    if Qeq_bool q 0 then "0.0" else if Qeq_bool q 100 then "100.0" else "x";
  repr_obj := fun _ => "obj";
  fs_write := fun path _ => negb (String.eqb path "FLAT.csv")
|}.

(** An exchange that answers every request with the JSON value [v]; every
    file can be written. *)
Definition answer_env (v : json) : Env := {|
  http_text := fun _ => Some "answer";
  json_loads := fun _ => Some v;
  float_of_string := fun _ => None;
  sqrt_q := sqrt_approx;
  repr_float := fun _ => "x";
  repr_obj := fun _ => "obj";
  fs_write := fun _ _ => true
|}.

(** A record as the exchange sends it: the open time, four prices as
    strings, the fifth entry being the close. *)
Definition quote (t : Z) (price : string) : json :=
  JArr [JNum (inject_Z t); JStr "o"; JStr "h"; JStr "l"; JStr price;
        JStr "v"].

(** [float] on the three prices of the sample. *)
Definition price_of_string (s : string) : option fval :=
  if String.eqb s "7.5" then Some (Fin (15 # 2))
  else if String.eqb s "8" then Some (Fin 8)
  else if String.eqb s "7" then Some (Fin 7)
  else None.

Definition three_quotes : list json :=
  [quote 0 "7.5"; quote 60000 "8"; quote 120000 "7"].

Definition three_candles : list (Z * fval) :=
  [(0%Z, Fin (15 # 2)); (60000%Z, Fin 8); (120000%Z, Fin 7)].

(** A record whose close is an integer no float can hold. *)
Definition huge_close : json :=
  JArr [JNum 1; JStr "o"; JStr "h"; JStr "l"; JNum (inject_Z (2 ^ 1024));
        JStr "v"].

(** An exchange that answers every request with the JSON value [v] and
    whose prices are read by [price_of_string]; every file can be
    written. *)
Definition quotes_env (v : json) : Env := {|
  http_text := fun _ => Some "answer";
  json_loads := fun _ => Some v;
  float_of_string := price_of_string;
  sqrt_q := sqrt_approx;
  repr_float := fun _ => "x";
  repr_obj := fun _ => "obj";
  fs_write := fun _ _ => true
|}.

(** The closes 1, 2, ..., 35 with the close of row 25 missing. *)
Definition gap_close : series :=
  map (fun k => if (k =? 25)%nat then NaN else fin_nat (S k)) (seq 0 35).

(* ================================================================= *)
(** ** Predicates on records and events *)

(** A record the loop of [fill_with_latest_data] stops at with the
    exception [e]: entry 0 is missing, or entry 4 is, or [float] refuses
    entry 4. *)
Definition rejects (env : Env) (record : json) (e : exn) : Prop :=
  py_getitem record 0 = Raise e \/
  (exists u, py_getitem record 0 = Ok u /\ py_getitem record 4 = Raise e) \/
  (exists u c, py_getitem record 0 = Ok u /\ py_getitem record 4 = Ok c /\
               py_float env c = Raise e).

(** Output on the console. *)
Definition is_print (ev : event) : Prop :=
  match ev with
  | PrintLine _ | PrintFrame _ | PrintValue _ _ => True
  | _ => False
  end.

(** A file, if the event writes one, is [<pair>.csv] for a pair of the
    list; the event is not a plot. *)
Definition writes_for (pairs : list string) (ev : event) : Prop :=
  match ev with
  | WriteFile path _ => exists p, In p pairs /\ path = (p ++ extension)%string
  | Plot _ => False
  | _ => True
  end.

(** A file, if the event writes one, is [path]; the event is not a plot. *)
Definition writes_to (path : string) (ev : event) : Prop :=
  match ev with
  | WriteFile p _ => p = path
  | Plot _ => False
  | _ => True
  end.

Definition is_request (ev : event) : Prop :=
  match ev with
  | Get _ => True
  | _ => False
  end.

(** A record as the exchange sends it: entry 0 is an integer time stamp
    that a float holds exactly, entry 4 a string that [float] reads as the
    close. *)
Definition candle_record (env : Env) (record : json) (tx : Z * fval) : Prop :=
  py_getitem record 0 = Ok (JNum (inject_Z (fst tx))) /\
  (Z.abs (fst tx) <= 2 ^ 53)%Z /\
  exists s, py_getitem record 4 = Ok (JStr s) /\
            float_of_string env s = Some (snd tx).

(** The two columns of the candles. *)
Definition timestamps (txs : list (Z * fval)) : column :=
  map (fun tx => CNum (fin_z (fst tx))) txs.

Definition closes (txs : list (Z * fval)) : series := map snd txs.

(** [x == y] on floats (false on NaN). *)
Definition feq (x y : fval) : bool :=
  match x, y with
  | Fin a, Fin b => Qeq_bool a b
  | PInf, PInf | NInf, NInf => true
  | _, _ => false
  end.

(* ================================================================= *)
(** * Properties *)

(** ** The monad *)

Section MonadFacts.
Context {event : Type}.

Lemma bind_ret_l {A B} (a : A) (k : A -> M event B) : bind (ret a) k = k a.
Proof. unfold bind, ret. destruct (k a); reflexivity. Qed.

Lemma bind_raise {A B} (e : exn) (k : A -> M event B) :
  bind (raise e) k = raise e.
Proof. reflexivity. Qed.

Lemma bind_emit {B} (ev : event) (k : unit -> M event B) :
  bind (emit ev) k = (ev :: fst (k tt), snd (k tt)).
Proof. unfold bind, emit. destruct (k tt); reflexivity. Qed.

Lemma bind_ok {A B} (t : list event) (a : A) (k : A -> M event B) :
  bind (t, Ok a) k = ((t ++ fst (k a))%list, snd (k a)).
Proof. unfold bind. destruct (k a); reflexivity. Qed.

Lemma bind_assoc {A B C} (m : M event A) (k : A -> M event B)
      (h : B -> M event C) :
  bind (bind m k) h = bind m (fun a => bind (k a) h).
Proof.
  destruct m as [t [a | e]]; simpl; [| reflexivity].
  destruct (k a) as [t1 [b | e1]]; simpl; [| reflexivity].
  destruct (h b) as [t2 r]. now rewrite app_assoc.
Qed.

(** A loop over [pre ++ post] whose first part completes continues with
    the second part, after the events of the first. *)
Lemma for_each_app {A} (body : A -> M event unit) (pre post : list A)
      (t : list event) :
  for_each pre body = (t, Ok tt) ->
  for_each (pre ++ post)%list body
  = ((t ++ fst (for_each post body))%list, snd (for_each post body)).
Proof.
  revert t. induction pre as [| x pre IH]; intros t H; simpl in *.
  - inversion H; subst. simpl. now destruct (for_each post body).
  - destruct (body x) as [t1 [[] | e]]; simpl in *; [| discriminate].
    destruct (for_each pre body) as [t2 [[] | e]] eqn:E; [| discriminate].
    inversion H; subst. rewrite (IH t2 eq_refl). simpl.
    now rewrite app_assoc.
Qed.

(** A step that raises ends the loop: nothing after it runs. *)
Lemma for_each_raise {A} (body : A -> M event unit) (x : A) (rest : list A)
      (t : list event) (e : exn) :
  body x = (t, Raise e) -> for_each (x :: rest) body = (t, Raise e).
Proof. intros H. simpl. now rewrite H. Qed.
End MonadFacts.

(** ** File names *)

Lemma str_index_append (c : ascii) (s rest : string) :
  str_mem c s = false ->
  str_index c (s ++ String c rest) = Some (String.length s).
Proof.
  induction s as [| a s IH]; simpl; intros H.
  - now rewrite Ascii.eqb_refl.
  - apply orb_false_iff in H as [Ha Hs]. rewrite Ha, (IH Hs). reflexivity.
Qed.

Lemma str_take_append (s rest : string) :
  str_take (String.length s) (s ++ rest) = s.
Proof. induction s as [| a s IH]; simpl; [now destruct rest | now rewrite IH]. Qed.

Lemma remove_extension_append (s : string) :
  str_mem dot s = false -> remove_extension (s ++ extension) = Ok s.
Proof.
  intros H. unfold remove_extension, extension.
  change ".csv" with (String dot "csv").
  rewrite (str_index_append dot s "csv" H).
  now rewrite str_take_append.
Qed.

(** ** Data frames *)

Lemma assoc_set_col (name m : string) (col : column) (df : DataFrame) :
  assoc m (set_col name col df)
  = if String.eqb name m then Some col else assoc m df.
Proof.
  induction df as [| [n c] rest IH]; simpl.
  - reflexivity.
  - destruct (String.eqb n name) eqn:E; simpl.
    + apply String.eqb_eq in E; subst n.
      now destruct (String.eqb name m).
    + rewrite IH. destruct (String.eqb n m) eqn:E1; [| reflexivity].
      apply String.eqb_eq in E1; subst m. now rewrite String.eqb_sym, E.
Qed.

Lemma set_col_twice (name : string) (c1 c2 : column) (df : DataFrame) :
  set_col name c2 (set_col name c1 df) = set_col name c2 df.
Proof.
  induction df as [| [n c] rest IH]; simpl.
  - now rewrite String.eqb_refl.
  - destruct (String.eqb n name) eqn:E; simpl.
    + now rewrite String.eqb_refl.
    + now rewrite E, IH.
Qed.

Lemma columns_set_col (name : string) (col : column) (df : DataFrame) :
  columns (set_col name col df)
  = if has_key name df then columns df else (columns df ++ [name])%list.
Proof.
  unfold has_key, columns.
  induction df as [| [n c] rest IH]; simpl; [reflexivity |].
  destruct (String.eqb n name) eqn:E; simpl.
  - apply String.eqb_eq in E. now subst.
  - rewrite IH. now destruct (assoc name rest).
Qed.

Lemma as_floats_CNum (xs : series) : as_floats (map CNum xs) = Ok xs.
Proof. induction xs as [| x xs IH]; simpl; [| rewrite IH]; reflexivity. Qed.

Lemma getitem_eq (df : DataFrame) (name : string) (col : column) :
  assoc name df = Some col -> getitem df name = ret col.
Proof. unfold getitem. now intros ->. Qed.

Lemma getf_eq (df : DataFrame) (name : string) (xs : series) :
  assoc name df = Some (map CNum xs) -> getf df name = ret xs.
Proof.
  intros H. unfold getf. rewrite (getitem_eq _ _ _ H), bind_ret_l.
  now rewrite as_floats_CNum.
Qed.

Lemma iloc_last_nonempty (col : column) :
  col <> [] -> exists v, iloc_last col = ret v.
Proof. destruct col; [congruence | eexists; reflexivity]. Qed.

(** Reading a column back through the assignments made so far. *)
Ltac read_col :=
  unfold setf; rewrite ?assoc_set_col; simpl String.eqb;
  first [reflexivity | eassumption].

Ltac run_step :=
  first
    [ rewrite bind_ret_l
    | erewrite getf_eq by read_col
    | erewrite getitem_eq by read_col
    | rewrite bind_emit ].

(** ** Series *)

Lemma diff_length (xs : series) : length (diff xs) = length xs.
Proof. unfold diff. now rewrite length_map, length_seq. Qed.

Lemma set_where_length p v (xs : series) : length (set_where p v xs) = length xs.
Proof. unfold set_where. now rewrite length_map. Qed.

Lemma rolling_length agg period (xs : series) :
  length (rolling agg period xs) = length xs.
Proof. unfold rolling. now rewrite length_map, length_seq. Qed.

Lemma zip_with_length f (xs ys : series) :
  length (zip_with f xs ys) = Nat.min (length xs) (length ys).
Proof.
  revert ys. induction xs as [| x xs IH]; intros [| y ys]; simpl; auto.
Qed.

Lemma up_series_length close : length (up_series close) = length close.
Proof. unfold up_series. now rewrite set_where_length, diff_length. Qed.

Lemma down_series_length close : length (down_series close) = length close.
Proof.
  unfold down_series. now rewrite length_map, set_where_length, diff_length.
Qed.

Lemma rs_series_length p close : length (rs_series p close) = length close.
Proof.
  unfold rs_series, avg_up_series, avg_down_series.
  rewrite zip_with_length, !rolling_length, up_series_length, down_series_length.
  apply Nat.min_id.
Qed.

Lemma rsi_series_length p close : length (rsi_series p close) = length close.
Proof. unfold rsi_series. now rewrite length_map, rs_series_length. Qed.

(** ** What [set_RSI] and [set_BB] return *)

Lemma set_RSI_ok (df : DataFrame) (period : nat) (close : series) :
  assoc "close" df = Some (map CNum close) ->
  close <> [] ->
  exists v,
    set_RSI df period
    = ([PrintFrame (iloc_head 21 (rsi_frame df period close));
        PrintValue "RSI" v],
       Ok (rsi_frame df period close)).
Proof.
  intros Hclose Hne.
  destruct (iloc_last_nonempty (map CNum (rsi_series period close))) as [v Hv].
  { intros E. apply (f_equal (@length _)) in E.
    rewrite length_map, rsi_series_length in E. now destruct close. }
  exists v. unfold set_RSI.
  repeat run_step.
  unfold rsi_frame, rsi_series, rs_series, avg_up_series, avg_down_series,
    up_series, down_series in *.
  rewrite Hv. repeat run_step. simpl.
  unfold setf. now rewrite !set_col_twice.
Qed.

Lemma upper_series_length env p close :
  length (upper_series env p close) = length close.
Proof.
  unfold upper_series, ma_series, sd_series.
  rewrite zip_with_length, length_map, !rolling_length. apply Nat.min_id.
Qed.

Lemma lower_series_length env p close :
  length (lower_series env p close) = length close.
Proof.
  unfold lower_series, ma_series, sd_series.
  rewrite zip_with_length, length_map, !rolling_length. apply Nat.min_id.
Qed.

Lemma map_CNum_nonempty (xs : series) : xs <> [] -> map CNum xs <> [].
Proof. now destruct xs. Qed.

Lemma nonempty_of_length (xs ys : series) :
  length xs = length ys -> ys <> [] -> xs <> [].
Proof. destruct xs, ys; simpl; congruence. Qed.

Lemma set_BB_ok (env : Env) (df : DataFrame) (period : nat) (close : series) :
  assoc "close" df = Some (map CNum close) ->
  close <> [] ->
  exists u l,
    set_BB env df period
    = ([PrintValue "Upperband" u; PrintValue "Lowerband" l],
       Ok (bb_frame env df period close)).
Proof.
  intros Hclose Hne.
  destruct (iloc_last_nonempty (map CNum (upper_series env period close)))
    as [u Hu].
  { apply map_CNum_nonempty.
    eapply nonempty_of_length; [apply upper_series_length | exact Hne]. }
  destruct (iloc_last_nonempty (map CNum (lower_series env period close)))
    as [l Hl].
  { apply map_CNum_nonempty.
    eapply nonempty_of_length; [apply lower_series_length | exact Hne]. }
  exists u, l. unfold set_BB.
  repeat run_step.
  unfold bb_frame, upper_series, lower_series, ma_series, sd_series in *.
  rewrite Hu. repeat run_step. simpl.
  rewrite Hl. repeat run_step. reflexivity.
Qed.

(** ** Entries of the series *)

Lemma nth_error_map_seq {A} (f : nat -> A) (n i : nat) :
  nth_error (map f (seq 0 n)) i = if (i <? n)%nat then Some (f i) else None.
Proof.
  rewrite nth_error_map, nth_error_seq. now destruct (i <? n)%nat.
Qed.

Lemma at_nth_error (xs : series) (i : nat) (x : fval) :
  nth_error xs i = Some x -> at_ xs i = x.
Proof. apply nth_error_nth. Qed.

Lemma nth_error_at (xs : series) (i : nat) :
  i < length xs -> nth_error xs i = Some (at_ xs i).
Proof. apply nth_error_nth'. Qed.

Lemma diff_nth (xs : series) (i : nat) :
  i < length xs ->
  nth_error (diff xs) i
  = Some (match i with
          | O => NaN
          | S j => fsub (at_ xs i) (at_ xs j)
          end).
Proof.
  intros H. unfold diff. rewrite nth_error_map_seq.
  apply Nat.ltb_lt in H. now rewrite H.
Qed.

Lemma rolling_nth agg (period : nat) (xs : series) (i : nat) :
  i < length xs ->
  nth_error (rolling agg period xs) i
  = Some (if (S i <? period)%nat then NaN
          else if existsb no_observation (window period i xs) then NaN
               else agg (window period i xs)).
Proof.
  intros H. unfold rolling. rewrite nth_error_map_seq.
  apply Nat.ltb_lt in H. now rewrite H.
Qed.

Lemma zip_with_nth f (xs ys : series) (i : nat) :
  nth_error (zip_with f xs ys) i
  = match nth_error xs i, nth_error ys i with
    | Some x, Some y => Some (f x y)
    | _, _ => None
    end.
Proof.
  revert ys i. induction xs as [| x xs IH]; intros [| y ys] [| i]; simpl; auto.
  - now destruct (nth_error xs i).
Qed.

(** The window that ends at [i] holds the entries [i+1-period .. i]. *)
Lemma window_eq (period i : nat) (xs : series) :
  period <= S i -> i < length xs ->
  window period i xs = map (at_ xs) (seq (S i - period) period).
Proof.
  intros Hp Hi. unfold window. apply nth_error_ext. intros n.
  rewrite nth_error_firstn, nth_error_map, nth_error_seq, nth_error_skipn.
  destruct (n <? period)%nat eqn:E; [| reflexivity].
  apply Nat.ltb_lt in E. cbn [option_map]. rewrite nth_error_at by lia. reflexivity.
Qed.

Lemma window_length (period i : nat) (xs : series) :
  period <= S i -> i < length xs -> length (window period i xs) = period.
Proof.
  intros Hp Hi. now rewrite window_eq, length_map, length_seq.
Qed.

(** The scalar steps of [Up] and [Down]. *)
Lemma up_series_nth (close : series) (i : nat) :
  nth_error (up_series close) i = option_map up_of (nth_error (diff close) i).
Proof. unfold up_series, set_where. now rewrite nth_error_map. Qed.

Lemma down_series_nth (close : series) (i : nat) :
  nth_error (down_series close) i = option_map down_of (nth_error (diff close) i).
Proof.
  unfold down_series, set_where. rewrite !nth_error_map.
  now destruct (nth_error (diff close) i).
Qed.

(** *** The first [period] entries of a rolling mean over [Up] or [Down]
    are missing: the first difference is. *)

Lemma rolling_head_nan agg (period : nat) (xs : series) (i : nat) :
  nth_error xs 0 = Some NaN ->
  i < period -> i < length xs ->
  nth_error (rolling agg period xs) i = Some NaN.
Proof.
  intros H0 Hp Hi. rewrite rolling_nth by exact Hi.
  destruct (S i <? period)%nat eqn:E; [reflexivity |].
  apply Nat.ltb_ge in E. assert (period = S i) by lia. subst period.
  unfold window. rewrite Nat.sub_diag. simpl skipn.
  destruct xs as [| x xs]; [discriminate |].
  simpl in H0. inversion H0; subst x. reflexivity.
Qed.

Lemma up_series_head (close : series) :
  close <> [] -> nth_error (up_series close) 0 = Some NaN.
Proof.
  intros H. rewrite up_series_nth, diff_nth; [reflexivity |].
  destruct close; [congruence | simpl; lia].
Qed.

Lemma down_series_head (close : series) :
  close <> [] -> nth_error (down_series close) 0 = Some NaN.
Proof.
  intros H. rewrite down_series_nth, diff_nth; [reflexivity |].
  destruct close; [congruence | simpl; lia].
Qed.

Lemma rs_series_nth (period : nat) (close : series) (i : nat) :
  nth_error (rs_series period close) i
  = match nth_error (avg_up_series period close) i,
          nth_error (avg_down_series period close) i with
    | Some u, Some d => Some (fdiv u d)
    | _, _ => None
    end.
Proof. unfold rs_series. apply zip_with_nth. Qed.

Lemma rsi_series_nth (period : nat) (close : series) (i : nat) :
  nth_error (rsi_series period close) i
  = option_map rsi_of_rs (nth_error (rs_series period close) i).
Proof. unfold rsi_series. apply nth_error_map. Qed.

Lemma rsi_series_prefix (period : nat) (close : series) (i : nat) :
  i < period -> i < length close ->
  nth_error (rsi_series period close) i = Some NaN.
Proof.
  intros Hp Hi.
  assert (Hne : close <> []) by (destruct close; simpl in *; [lia | congruence]).
  rewrite rsi_series_nth, rs_series_nth.
  unfold avg_up_series, avg_down_series.
  rewrite (rolling_head_nan mean period _ i (up_series_head close Hne) Hp)
    by now rewrite up_series_length.
  rewrite (rolling_head_nan mean period _ i (down_series_head close Hne) Hp)
    by now rewrite down_series_length.
  reflexivity.
Qed.

(** ** Arithmetic of finite values *)

Lemma Qltb_lt (a b : Q) : Qltb a b = true <-> (a < b)%Q.
Proof.
  unfold Qltb. rewrite negb_true_iff. split; intros H.
  - apply Qnot_le_lt. intros Hle. apply Qle_bool_iff in Hle. congruence.
  - destruct (Qle_bool b a) eqn:E; [| reflexivity].
    apply Qle_bool_iff in E. exfalso. now apply (Qlt_not_le a b).
Qed.

Lemma Qltb_ge (a b : Q) : Qltb a b = false <-> (b <= a)%Q.
Proof.
  unfold Qltb. rewrite negb_false_iff. apply Qle_bool_iff.
Qed.

Lemma Qeq_bool_false (a b : Q) : Qeq_bool a b = false <-> ~ (a == b)%Q.
Proof.
  split; [apply Qeq_bool_neq |].
  intros H. destruct (Qeq_bool a b) eqn:E; [| reflexivity].
  apply Qeq_bool_iff in E. contradiction.
Qed.

Lemma nonneg_observed (x : fval) : nonneg x -> no_observation x = false.
Proof. now intros (q & -> & _). Qed.

Lemma existsb_nan_nonneg (w : series) :
  Forall nonneg w -> existsb no_observation w = false.
Proof.
  induction 1 as [| x w Hx _ IH]; simpl; [reflexivity |].
  now rewrite (nonneg_observed x Hx), IH.
Qed.

(** A sum of non-negative numbers is non-negative, and zero exactly when
    every summand is. *)
Lemma fold_fadd_nonneg (w : series) (acc : Q) :
  (0 <= acc)%Q -> Forall nonneg w ->
  exists s, fold_left fadd w (Fin acc) = Fin s /\ (0 <= s)%Q /\
            ((s == 0)%Q <-> (acc == 0)%Q /\ Forall (fun x => fzero x = true) w).
Proof.
  intros Hacc Hw. revert acc Hacc.
  induction Hw as [| x w (q & -> & Hq) _ IH]; intros acc Hacc.
  - exists acc. simpl. repeat split; auto. tauto.
  - simpl. destruct (IH (Qred (acc + q))) as (s & Hs & Hs0 & Hz).
    { rewrite Qred_correct. lra. }
    exists s. split; [exact Hs |]. split; [exact Hs0 |].
    rewrite Hz, Qred_correct. split.
    + intros [H1 H2]. split; [lra |]. constructor; [| exact H2].
      simpl. apply Qeq_bool_iff. lra.
    + intros [H1 H2]. inversion H2 as [| ? ? Hx Hrest]; subst.
      simpl in Hx. apply Qeq_bool_iff in Hx. split; [lra | exact Hrest].
Qed.

Lemma fsum_nonneg (w : series) :
  Forall nonneg w ->
  exists s, fsum w = Fin s /\ (0 <= s)%Q /\
            ((s == 0)%Q <-> Forall (fun x => fzero x = true) w).
Proof.
  intros Hw. destruct (fold_fadd_nonneg w 0%Q) as (s & Hs & Hs0 & Hz);
    [lra | exact Hw |].
  exists s. repeat split; auto.
  - intros H. now apply Hz.
  - intros H. apply Hz. split; [reflexivity | exact H].
Qed.

Lemma inject_nat_pos (n : nat) : 0 < n -> (0 < inject_Z (Z.of_nat n))%Q.
Proof.
  intros H. unfold Qlt, inject_Z. simpl. lia.
Qed.

Lemma mean_nonneg (w : series) :
  Forall nonneg w -> w <> [] ->
  exists m, mean w = Fin m /\ (0 <= m)%Q /\
            ((m == 0)%Q <-> Forall (fun x => fzero x = true) w).
Proof.
  intros Hw Hne. destruct (fsum_nonneg w Hw) as (s & Hs & Hs0 & Hz).
  assert (Hn : (0 < inject_Z (Z.of_nat (length w)))%Q).
  { apply inject_nat_pos. destruct w; [congruence | simpl; lia]. }
  assert (E : Qeq_bool (inject_Z (Z.of_nat (length w))) 0 = false).
  { apply Qeq_bool_false. lra. }
  unfold mean, fin_nat. rewrite Hs. unfold fdiv. rewrite E.
  eexists. split; [reflexivity |].
  set (n := inject_Z (Z.of_nat (length w))) in *.
  rewrite Qred_correct, <- Hz.
  split.
  - apply Qle_shift_div_l; [exact Hn | lra].
  - split; intros H.
    + assert (H1 : (s == s / n * n)%Q) by (field; lra).
      rewrite H in H1. lra.
    + rewrite H. unfold Qdiv. lra.
Qed.

Lemma up_of_fin (d : Q) :
  nonneg (up_of (Fin d)) /\ (fzero (up_of (Fin d)) = true <-> (d <= 0)%Q).
Proof.
  unfold up_of, flt, f0, fin_z. change (inject_Z 0) with 0%Q.
  destruct (Qltb d 0) eqn:E.
  - apply Qltb_lt in E. split.
    + exists 0%Q. split; [reflexivity | lra].
    + simpl. split; [lra | reflexivity].
  - apply Qltb_ge in E. split.
    + exists d. now split.
    + simpl. rewrite Qeq_bool_iff. lra.
Qed.

Lemma down_of_fin (d : Q) :
  nonneg (down_of (Fin d)) /\ (fzero (down_of (Fin d)) = true <-> (0 <= d)%Q).
Proof.
  unfold down_of, fgt, flt, f0, fin_z. change (inject_Z 0) with 0%Q.
  destruct (Qltb 0 d) eqn:E.
  - apply Qltb_lt in E. split.
    + exists 0%Q. split; [reflexivity | lra].
    + split; [lra | reflexivity].
  - apply Qltb_ge in E. unfold fabs. split.
    + eexists. split; [reflexivity |]. rewrite Qred_correct. apply Qabs_nonneg.
    + unfold fzero. rewrite Qeq_bool_iff, Qred_correct, (Qabs_neg d E). lra.
Qed.

Lemma rsi_of_rs_fin (r : Q) :
  (0 <= r)%Q ->
  exists q, rsi_of_rs (Fin r) = Fin q /\ (0 <= q)%Q /\ (q <= 100)%Q.
Proof.
  intros Hr. unfold rsi_of_rs, f100, f1, fin_z, fadd, fdiv.
  change (inject_Z 100) with 100%Q. change (inject_Z 1) with 1%Q.
  assert (Ht : (0 < Qred (1 + r))%Q) by (rewrite Qred_correct; lra).
  assert (E : Qeq_bool (Qred (1 + r)) 0 = false) by (apply Qeq_bool_false; lra).
  rewrite E. unfold fsub. eexists. split; [reflexivity |].
  rewrite !Qred_correct in *.
  assert (H1 : (0 <= 100 / (1 + r))%Q) by (apply Qle_shift_div_l; lra).
  assert (H2 : (100 / (1 + r) <= 100)%Q) by (apply Qle_shift_div_r; lra).
  split; lra.
Qed.

(** [RS] and [RSI] from two non-negative averages: missing when both are
    zero, a number of [0, 100] otherwise. *)
Lemma rsi_of_averages (a b : Q) :
  (0 <= a)%Q -> (0 <= b)%Q ->
  ((a == 0)%Q /\ (b == 0)%Q -> rsi_of_rs (fdiv (Fin a) (Fin b)) = NaN) /\
  (~ ((a == 0)%Q /\ (b == 0)%Q) ->
   exists q, rsi_of_rs (fdiv (Fin a) (Fin b)) = Fin q /\
             (0 <= q)%Q /\ (q <= 100)%Q).
Proof.
  intros Ha Hb. unfold fdiv, inf_times.
  destruct (Qeq_bool b 0) eqn:Eb.
  - apply Qeq_bool_iff in Eb.
    destruct (Qeq_bool a 0) eqn:Ea.
    + apply Qeq_bool_iff in Ea. split; [reflexivity | tauto].
    + apply Qeq_bool_false in Ea.
      assert (E : Qltb 0 a = true) by (apply Qltb_lt; lra).
      rewrite E. split; [tauto |]. intros _.
      exists 100%Q. split; [reflexivity | lra].
  - apply Qeq_bool_false in Eb. split; [tauto |]. intros _.
    apply rsi_of_rs_fin. rewrite Qred_correct.
    apply Qle_shift_div_l; lra.
Qed.

(** When the average loss is zero and the average gain is positive, [RS]
    is +inf and [RSI] is exactly 100; when both are zero, both are
    missing.  Nothing raises. *)
Lemma rsi_of_zero_loss (u d : fval) :
  fzero d = true ->
  (flt f0 u = true -> rsi_of_rs (fdiv u d) = f100) /\
  (fzero u = true -> rsi_of_rs (fdiv u d) = NaN).
Proof.
  destruct d as [| | | b]; try discriminate. simpl. intros Hb.
  assert (Hb' : Qltb b 0 = false) by (apply Qeq_bool_iff in Hb; apply Qltb_ge; lra).
  split.
  - destruct u as [| | | a]; try discriminate.
    + intros _. unfold fdiv. now rewrite Hb'.
    + unfold flt, f0, fin_z. change (inject_Z 0) with 0%Q. intros Ha.
      unfold fdiv, inf_times. rewrite Hb, Ha.
      apply Qltb_lt in Ha.
      assert (E : Qeq_bool a 0 = false) by (apply Qeq_bool_false; lra).
      now rewrite E.
  - destruct u as [| | | a]; try discriminate. simpl. intros Ha.
    unfold fdiv, inf_times. now rewrite Hb, Ha.
Qed.

(** ** The averages of a finite close series *)

Lemma Forall_map_seq {A} (P : A -> Prop) (f : nat -> A) (a n : nat) :
  Forall P (map f (seq a n)) <-> (forall j, a <= j < a + n -> P (f j)).
Proof.
  rewrite Forall_map, Forall_forall. split; intros H j Hj.
  - apply H. now apply in_seq.
  - apply H. now apply in_seq in Hj.
Qed.

Lemma at_map_Fin (qs : list Q) (k : nat) :
  k < length qs -> at_ (map Fin qs) k = Fin (nth k qs 0%Q).
Proof.
  intros H. apply at_nth_error.
  now rewrite nth_error_map, (nth_error_nth' qs 0%Q H).
Qed.

Lemma diff_at_fin (qs : list Q) (j : nat) :
  S j < length qs ->
  nth_error (diff (map Fin qs)) (S j) = Some (Fin (change qs j)).
Proof.
  intros H. rewrite diff_nth by (rewrite length_map; exact H).
  now rewrite !at_map_Fin by lia.
Qed.

Lemma up_at_fin (qs : list Q) (j : nat) :
  S j < length qs ->
  at_ (up_series (map Fin qs)) (S j) = up_of (Fin (change qs j)).
Proof.
  intros H. apply at_nth_error. now rewrite up_series_nth, diff_at_fin.
Qed.

Lemma down_at_fin (qs : list Q) (j : nat) :
  S j < length qs ->
  at_ (down_series (map Fin qs)) (S j) = down_of (Fin (change qs j)).
Proof.
  intros H. apply at_nth_error. now rewrite down_series_nth, diff_at_fin.
Qed.

Section FiniteAverages.
Variables (qs : list Q) (period i : nat).
Hypothesis Hperiod : 0 < period.
Hypothesis Hfull : period <= i.
Hypothesis Hi : i < length qs.

(** An average over a full window of a series whose entries past the
    first are non-negative. *)
Lemma rolling_mean_full (xs : series) (g : Q -> fval) (ok : Q -> Prop) :
  length xs = length qs ->
  (forall j, S j < length qs -> at_ xs (S j) = g (change qs j)) ->
  (forall d, nonneg (g d) /\ (fzero (g d) = true <-> ok d)) ->
  exists m, nth_error (rolling mean period xs) i = Some (Fin m) /\
            (0 <= m)%Q /\
            ((m == 0)%Q <-> forall j, i - period <= j < i -> ok (change qs j)).
Proof.
  intros Hlen Hat Hg.
  assert (Hw : window period i xs = map (at_ xs) (seq (S i - period) period))
    by (apply window_eq; lia).
  assert (Hnn : Forall nonneg (window period i xs)).
  { rewrite Hw. apply Forall_map_seq. intros j Hj.
    destruct j as [| j]; [lia |]. rewrite Hat by lia. apply Hg. }
  destruct (mean_nonneg _ Hnn) as (m & Hm & Hm0 & Hz).
  { intros E. apply (f_equal (@length _)) in E.
    rewrite window_length in E by lia. simpl in E. lia. }
  exists m. rewrite rolling_nth by lia.
  assert (E : (S i <? period)%nat = false) by (apply Nat.ltb_ge; lia).
  rewrite E, (existsb_nan_nonneg _ Hnn), Hm.
  split; [reflexivity |]. split; [exact Hm0 |].
  rewrite Hz, Hw, Forall_map_seq. split; intros H j Hj.
  - specialize (H (S j)). rewrite Hat in H by lia. apply Hg, H. lia.
  - destruct j as [| j]; [lia |]. rewrite Hat by lia. apply Hg, H. lia.
Qed.

Lemma avg_up_full :
  exists m, nth_error (avg_up_series period (map Fin qs)) i = Some (Fin m) /\
            (0 <= m)%Q /\
            ((m == 0)%Q <->
             forall j, i - period <= j < i -> (change qs j <= 0)%Q).
Proof.
  apply (rolling_mean_full (up_series (map Fin qs))
           (fun d => up_of (Fin d)) (fun d => (d <= 0)%Q)).
  - now rewrite up_series_length, length_map.
  - apply up_at_fin.
  - apply up_of_fin.
Qed.

Lemma avg_down_full :
  exists m, nth_error (avg_down_series period (map Fin qs)) i = Some (Fin m) /\
            (0 <= m)%Q /\
            ((m == 0)%Q <->
             forall j, i - period <= j < i -> (0 <= change qs j)%Q).
Proof.
  apply (rolling_mean_full (down_series (map Fin qs))
           (fun d => down_of (Fin d)) (fun d => (0 <= d)%Q)).
  - now rewrite down_series_length, length_map.
  - apply down_at_fin.
  - apply down_of_fin.
Qed.

(** Past the first [period] rows the RSI of a finite series is a number
    of [0, 100], except where the closes of the window are all equal:
    there it is missing. *)
Lemma rsi_full :
  exists x, nth_error (rsi_series period (map Fin qs)) i = Some x /\
    (x = NaN \/ exists q, x = Fin q /\ (0 <= q)%Q /\ (q <= 100)%Q) /\
    (x = NaN <->
     forall j, i - period <= j < i -> (nth j qs 0 == nth (S j) qs 0)%Q).
Proof.
  destruct avg_up_full as (a & Ha & Ha0 & Haz).
  destruct avg_down_full as (b & Hb & Hb0 & Hbz).
  rewrite rsi_series_nth, rs_series_nth, Ha, Hb. cbn [option_map].
  destruct (rsi_of_averages a b Ha0 Hb0) as [Hnan Hfin].
  assert (Hflat : (a == 0)%Q /\ (b == 0)%Q <->
                  forall j, i - period <= j < i ->
                            (nth j qs 0 == nth (S j) qs 0)%Q).
  { rewrite Haz, Hbz. unfold change. split.
    - intros [H1 H2] j Hj. specialize (H1 j Hj). specialize (H2 j Hj).
      rewrite Qred_correct in H1, H2. lra.
    - intros H. split; intros j Hj; specialize (H j Hj);
        rewrite Qred_correct; lra. }
  eexists. split; [reflexivity |].
  destruct (Qeq_bool a 0 && Qeq_bool b 0) eqn:E.
  - apply andb_true_iff in E as [E1 E2].
    apply Qeq_bool_iff in E1, E2.
    rewrite (Hnan (conj E1 E2)). split; [now left |].
    split; [intros _; apply Hflat; tauto | reflexivity].
  - assert (Hn : ~ ((a == 0)%Q /\ (b == 0)%Q)).
    { intros [E1 E2]. apply Qeq_bool_iff in E1, E2.
      rewrite E1, E2 in E. discriminate. }
    destruct (Hfin Hn) as (q & Hq & Hq0 & Hq100). rewrite Hq.
    split; [right; now exists q |].
    split; [discriminate | intros H; apply Hflat in H; contradiction].
Qed.
End FiniteAverages.

(** ** Cells of the frames *)

Lemma cell_at_setf_same (df : DataFrame) (name : string) (xs : series) (i : nat) :
  cell_at (setf name xs df) name i = option_map CNum (nth_error xs i).
Proof.
  unfold cell_at, setf. rewrite assoc_set_col, String.eqb_refl.
  apply nth_error_map.
Qed.

Lemma cell_at_setf_other (df : DataFrame) (name m : string) (xs : series) (i : nat) :
  String.eqb name m = false ->
  cell_at (setf name xs df) m i = cell_at df m i.
Proof.
  intros H. unfold cell_at, setf. now rewrite assoc_set_col, H.
Qed.

Ltac read_cell :=
  repeat first
    [ rewrite cell_at_setf_same
    | rewrite cell_at_setf_other by reflexivity ].

Lemma rsi_frame_RSI df p close i :
  cell_at (rsi_frame df p close) "RSI" i
  = option_map CNum (nth_error (rsi_series p close) i).
Proof. unfold rsi_frame. now read_cell. Qed.

Lemma rsi_frame_avg_up df p close i :
  cell_at (rsi_frame df p close) "avg_up" i
  = option_map CNum (nth_error (avg_up_series p close) i).
Proof. unfold rsi_frame. now read_cell. Qed.

Lemma rsi_frame_avg_down df p close i :
  cell_at (rsi_frame df p close) "avg_down" i
  = option_map CNum (nth_error (avg_down_series p close) i).
Proof. unfold rsi_frame. now read_cell. Qed.

Lemma option_map_CNum_inv (o : option fval) (x : fval) :
  option_map CNum o = Some (CNum x) -> o = Some x.
Proof. destruct o; simpl; congruence. Qed.

Lemma nth_error_in_range {A} (l : list A) (i : nat) (a : A) :
  nth_error l i = Some a -> i < length l.
Proof. intros H. apply nth_error_Some. congruence. Qed.

(** On a close column of no sample [set_RSI] computes its columns, prints
    the head of the table and raises at the last RSI value. *)
Lemma set_RSI_no_rows (df : DataFrame) (period : nat) :
  assoc "close" df = Some (map CNum []) ->
  exists head, set_RSI df period = ([PrintFrame head], Raise IndexError).
Proof.
  intros H. unfold set_RSI. repeat run_step. cbn [fst snd].
  eexists. reflexivity.
Qed.



(* ================================================================= *)
(** * The RSI *)

(** C2, as stated, fails: on sixteen candles that all close at 7 the
    average loss of row 14 is 0, and the RSI of that row is missing, not
    100. *)
Lemma C2_flat_window_counterexample :
  exists tr out,
    set_RSI (candle_frame flat_close) 14 = (tr, Ok out) /\
    cell_at out "avg_down" 14 = Some (CNum f0) /\
    cell_at out "RSI" 14 = Some (CNum NaN) /\
    cell_at out "RSI" 14 <> Some (CNum f100).
Proof.
  do 2 eexists. split; [vm_compute; reflexivity |].
  split; [vm_compute; reflexivity |].
  split; [vm_compute; reflexivity | vm_compute; discriminate].
Qed.

(** C2 (amended): on a table with a close column the division raises
    nothing: [set_RSI] returns, except on a column of no sample, where
    the last print raises [IndexError].  In the table it returns, at every
    row whose average loss is 0 the RSI is exactly 100 when the average
    gain is positive and missing when the average gain is 0 too; for the
    closes 1, 2, ..., 35 the RSI of the last row is exactly 100. *)
Theorem C2_zero_loss_rsi (df : DataFrame) (close : series) :
  assoc "close" df = Some (map CNum close) ->
  exists tr r,
    set_RSI df 14 = (tr, r) /\
    match r with
    | Raise e => e = IndexError /\ close = []
    | Ok out =>
        close <> [] /\
        (forall i u d,
            cell_at out "avg_up" i = Some (CNum u) ->
            cell_at out "avg_down" i = Some (CNum d) ->
            fzero d = true ->
            (flt f0 u = true -> cell_at out "RSI" i = Some (CNum f100)) /\
            (fzero u = true -> cell_at out "RSI" i = Some (CNum NaN))) /\
        (close = ramp_close -> cell_at out "RSI" 34 = Some (CNum f100))
    end.
Proof.
  intros Hclose. destruct close as [| c0 close'].
  - destruct (set_RSI_no_rows df 14 Hclose) as [head Hrun].
    do 2 eexists. split; [exact Hrun |]. now split.
  - set (close := c0 :: close') in *.
    assert (Hne : close <> []) by discriminate.
    destruct (set_RSI_ok df 14 close Hclose Hne) as [v Hrun].
    do 2 eexists. split; [exact Hrun |]. split; [exact Hne |]. split.
    + intros i u d Hu Hd Hz.
      rewrite rsi_frame_avg_up in Hu. apply option_map_CNum_inv in Hu.
      rewrite rsi_frame_avg_down in Hd. apply option_map_CNum_inv in Hd.
      rewrite rsi_frame_RSI, rsi_series_nth, rs_series_nth, Hu, Hd.
      cbn [option_map].
      destruct (rsi_of_zero_loss u d Hz) as [Hpos Hzero].
      split; intros H; [now rewrite Hpos | now rewrite Hzero].
    + intros ->. rewrite rsi_frame_RSI. vm_compute. reflexivity.
Qed.

Lemma C2_zero_loss_rsi_witness :
  assoc "close" (candle_frame ramp_close) = Some (map CNum ramp_close) /\
  exists tr r,
    set_RSI (candle_frame ramp_close) 14 = (tr, r) /\
    match r with
    | Raise e => e = IndexError /\ ramp_close = []
    | Ok out =>
        ramp_close <> [] /\
        (forall i u d,
            cell_at out "avg_up" i = Some (CNum u) ->
            cell_at out "avg_down" i = Some (CNum d) ->
            fzero d = true ->
            (flt f0 u = true -> cell_at out "RSI" i = Some (CNum f100)) /\
            (fzero u = true -> cell_at out "RSI" i = Some (CNum NaN))) /\
        (ramp_close = ramp_close -> cell_at out "RSI" 34 = Some (CNum f100))
    end.
Proof.
  assert (H1 : assoc "close" (candle_frame ramp_close)
               = Some (map CNum ramp_close)) by reflexivity.
  exact (conj H1
           (C2_zero_loss_rsi (candle_frame ramp_close) ramp_close H1)).
Defined.




(** C4: for every finite close series, every RSI value that is defined
    lies in the closed interval [0, 100]. *)
Theorem C4_rsi_in_range (df : DataFrame) (qs : list Q) :
  assoc "close" df = Some (map CNum (map Fin qs)) ->
  qs <> [] ->
  exists tr out,
    set_RSI df 14 = (tr, Ok out) /\
    forall i x,
      cell_at out "RSI" i = Some (CNum x) ->
      x <> NaN ->
      exists q, x = Fin q /\ (0 <= q)%Q /\ (q <= 100)%Q.
Proof.
  intros Hclose Hne.
  destruct (set_RSI_ok df 14 (map Fin qs) Hclose) as [v Hrun].
  { now destruct qs. }
  do 2 eexists. split; [exact Hrun |].
  intros i x Hx Hdef.
  rewrite rsi_frame_RSI in Hx. apply option_map_CNum_inv in Hx.
  assert (Hi : i < length qs).
  { apply nth_error_in_range in Hx.
    now rewrite rsi_series_length, length_map in Hx. }
  destruct (Nat.lt_ge_cases i 14) as [Hlt | Hge].
  - rewrite rsi_series_prefix in Hx by (rewrite ?length_map; lia).
    congruence.
  - destruct (rsi_full qs 14 i) as (y & Hy & [Hnan | Hfin] & _); try lia;
      rewrite Hy in Hx; inversion Hx; subst; [congruence | exact Hfin].
Qed.

Lemma C4_rsi_in_range_witness :
  assoc "close" (candle_frame (map Fin wavy_prices))
  = Some (map CNum (map Fin wavy_prices)) /\
  wavy_prices <> [] /\
  exists tr out,
    set_RSI (candle_frame (map Fin wavy_prices)) 14 = (tr, Ok out) /\
    forall i x,
      cell_at out "RSI" i = Some (CNum x) ->
      x <> NaN ->
      exists q, x = Fin q /\ (0 <= q)%Q /\ (q <= 100)%Q.
Proof.
  assert (H1 : assoc "close" (candle_frame (map Fin wavy_prices))
               = Some (map CNum (map Fin wavy_prices))) by reflexivity.
  assert (H2 : wavy_prices <> []) by discriminate.
  exact (conj H1 (conj H2
           (C4_rsi_in_range (candle_frame (map Fin wavy_prices)) wavy_prices
              H1 H2))).
Defined.

(* ================================================================= *)
(** * The Bollinger bands *)

Lemma fadd_nan_r (x : fval) : fadd x NaN = NaN.
Proof. now destruct x. Qed.

Lemma fold_fadd_nan (w : series) : fold_left fadd w NaN = NaN.
Proof. induction w as [| x w IH]; simpl; auto. Qed.

Lemma fold_fadd_in_nan (w : series) (acc : fval) :
  In NaN w -> fold_left fadd w acc = NaN.
Proof.
  revert acc. induction w as [| x w IH]; intros acc H; simpl in *.
  - contradiction.
  - destruct H as [H | H].
    + subst x. rewrite fadd_nan_r. apply fold_fadd_nan.
    + now apply IH.
Qed.

(** A sum is an infinity only if it started as one or a summand is one. *)
Lemma fold_fadd_inf (w : series) (acc inf : fval) :
  inf = PInf \/ inf = NInf ->
  fold_left fadd w acc = inf -> acc = inf \/ In inf w.
Proof.
  intros Hinf. revert acc. induction w as [| x w IH]; intros acc H; simpl in *.
  - now left.
  - destruct (IH _ H) as [H1 | H1]; [| now right; right].
    destruct Hinf; subst inf; destruct acc, x; simpl in H1;
      try discriminate; auto.
Qed.

Lemma mean_inf (w : series) (inf : fval) :
  inf = PInf \/ inf = NInf -> w <> [] -> mean w = inf -> In inf w.
Proof.
  intros Hinf Hne H. unfold mean, fin_nat in H.
  assert (Hn : (0 < inject_Z (Z.of_nat (length w)))%Q).
  { apply inject_nat_pos. destruct w; [congruence | simpl; lia]. }
  set (n := inject_Z (Z.of_nat (length w))) in *.
  assert (E1 : Qltb n 0 = false) by (apply Qltb_ge; lra).
  assert (E2 : Qeq_bool n 0 = false) by (apply Qeq_bool_false; lra).
  assert (Hs : fsum w = inf).
  { destruct (fsum w) eqn:Es; unfold fdiv in H; rewrite ?E1, ?E2 in H;
      destruct Hinf; subst inf; congruence. }
  destruct (fold_fadd_inf w (Fin 0) inf Hinf Hs) as [H0 | H0]; [| exact H0].
  destruct Hinf; subst inf; discriminate.
Qed.

Section StdFacts.
Variable sqrt_fn : Q -> Q.

Lemma std_of_nan_square (w : series) (m : fval) :
  (exists x, In x w /\ fmul (fsub x m) (fsub x m) = NaN) ->
  fsqrt sqrt_fn
    (fdiv (fsum (map (fun x => fmul (fsub x m) (fsub x m)) w))
          (fin_nat (length w - 1)))
  = NaN.
Proof.
  intros (x & Hin & Hx). unfold fsum.
  rewrite fold_fadd_in_nan; [reflexivity |].
  apply in_map_iff. now exists x.
Qed.

(** Where the standard deviation of a window is defined, its mean is a
    finite number. *)
Lemma std_defined_mean_finite (w : series) :
  w <> [] ->
  std sqrt_fn w <> NaN ->
  exists a, mean w = Fin a.
Proof.
  intros Hne Hdef. unfold std in Hdef.
  destruct (mean w) as [| | | a] eqn:Em.
  - exfalso. apply Hdef. apply std_of_nan_square.
    destruct w as [| x w]; [congruence |].
    exists x. split; [now left | now destruct x].
  - exfalso. apply Hdef. apply std_of_nan_square.
    exists NInf. split; [| reflexivity].
    apply mean_inf; auto.
  - exfalso. apply Hdef. apply std_of_nan_square.
    exists PInf. split; [| reflexivity].
    apply mean_inf; auto.
  - now exists a.
Qed.
End StdFacts.

(** The band inequalities for a finite mean and a deviation [>= 0]. *)
Lemma bands_ordered (a : Q) (s : fval) :
  fle f0 s = true ->
  fle (fsub (Fin a) (fmul f2 s)) (Fin a) = true /\
  fle (Fin a) (fadd (Fin a) (fmul f2 s)) = true.
Proof.
  destruct s as [| | | b]; try discriminate.
  - intros _. split; reflexivity.
  - unfold f0, f2, fin_z, fle, fmul, fsub, fadd.
    change (inject_Z 0) with 0%Q. change (inject_Z 2) with 2%Q.
    intros Hb. apply Qle_bool_iff in Hb.
    split; apply Qle_bool_iff; rewrite !Qred_correct; lra.
Qed.

Lemma bb_frame_cells env df p close i :
  cell_at (bb_frame env df p close) "20MA" i
  = option_map CNum (nth_error (ma_series p close) i) /\
  cell_at (bb_frame env df p close) "SD" i
  = option_map CNum (nth_error (sd_series env p close) i) /\
  cell_at (bb_frame env df p close) "upperband" i
  = option_map CNum (nth_error (upper_series env p close) i) /\
  cell_at (bb_frame env df p close) "lowerband" i
  = option_map CNum (nth_error (lower_series env p close) i).
Proof. unfold bb_frame. repeat split; now read_cell. Qed.

(** Row [i] of the four band columns. *)
Lemma bands_at env (p : nat) (close : series) (i : nat) :
  0 < p -> i < length close ->
  exists m s,
    nth_error (ma_series p close) i = Some m /\
    nth_error (sd_series env p close) i = Some s /\
    nth_error (upper_series env p close) i = Some (fadd m (fmul f2 s)) /\
    nth_error (lower_series env p close) i = Some (fsub m (fmul f2 s)) /\
    (s <> NaN -> exists a, m = Fin a).
Proof.
  intros Hp Hi. unfold upper_series, lower_series, ma_series, sd_series.
  rewrite !zip_with_nth, !nth_error_map, !rolling_nth by exact Hi.
  do 2 eexists. repeat split.
  destruct (S i <? p)%nat eqn:E; [congruence |].
  destruct (existsb no_observation (window p i close)) eqn:En; [congruence |].
  apply std_defined_mean_finite.
  intros Hw. apply (f_equal (@length _)) in Hw.
  apply Nat.ltb_ge in E. rewrite window_length in Hw by lia.
  simpl in Hw. lia.
Qed.

(** C5: in the table [set_BB] returns, at every row the upper band is the
    moving average plus twice the deviation and the lower band is the
    moving average minus twice the deviation; where the deviation is
    defined and [>= 0], lowerband <= moving average <= upperband. *)
Theorem C5_bollinger_bands (env : Env) (df : DataFrame) (close : series) :
  assoc "close" df = Some (map CNum close) ->
  close <> [] ->
  exists tr out,
    set_BB env df 21 = (tr, Ok out) /\
    forall i, i < length close ->
      exists m s u l,
        cell_at out "20MA" i = Some (CNum m) /\
        cell_at out "SD" i = Some (CNum s) /\
        cell_at out "upperband" i = Some (CNum u) /\
        cell_at out "lowerband" i = Some (CNum l) /\
        u = fadd m (fmul f2 s) /\
        l = fsub m (fmul f2 s) /\
        (fle f0 s = true -> fle l m = true /\ fle m u = true).
Proof.
  intros Hclose Hne.
  destruct (set_BB_ok env df 21 close Hclose Hne) as (u0 & l0 & Hrun).
  do 2 eexists. split; [exact Hrun |].
  intros i Hi.
  destruct (bands_at env 21 close i) as (m & s & Hm & Hs & Hu & Hl & Hfin);
    [lia | exact Hi |].
  destruct (bb_frame_cells env df 21 close i) as (Cm & Cs & Cu & Cl).
  exists m, s, (fadd m (fmul f2 s)), (fsub m (fmul f2 s)).
  rewrite Cm, Cs, Cu, Cl, Hm, Hs, Hu, Hl.
  repeat (split; [reflexivity |]).
  intros Hge.
  destruct Hfin as [a ->]; [intros ->; discriminate |].
  now apply bands_ordered.
Qed.

Lemma C5_bollinger_bands_witness :
  assoc "close" (candle_frame ramp_close) = Some (map CNum ramp_close) /\
  ramp_close <> [] /\
  exists tr out,
    set_BB demo_env (candle_frame ramp_close) 21 = (tr, Ok out) /\
    forall i, i < length ramp_close ->
      exists m s u l,
        cell_at out "20MA" i = Some (CNum m) /\
        cell_at out "SD" i = Some (CNum s) /\
        cell_at out "upperband" i = Some (CNum u) /\
        cell_at out "lowerband" i = Some (CNum l) /\
        u = fadd m (fmul f2 s) /\
        l = fsub m (fmul f2 s) /\
        (fle f0 s = true -> fle l m = true /\ fle m u = true).
Proof.
  assert (H1 : assoc "close" (candle_frame ramp_close)
               = Some (map CNum ramp_close)) by reflexivity.
  assert (H2 : ramp_close <> []) by (vm_compute; discriminate).
  exact (conj H1 (conj H2
           (C5_bollinger_bands demo_env (candle_frame ramp_close) ramp_close
              H1 H2))).
Defined.

(* ================================================================= *)
(** * The output table *)

Lemma feature_engineering_ok (env : Env) (df : DataFrame) (unix : column)
      (close : series) :
  assoc "unix" df = Some unix ->
  assoc "close" df = Some (map CNum close) ->
  close <> [] ->
  exists tr,
    feature_engineering env df = (tr, Ok (feature_frame env unix close)).
Proof.
  intros Hunix Hclose Hne.
  destruct (set_RSI_ok df 14 close Hclose Hne) as [v Hrsi].
  destruct (set_BB_ok env (rsi_frame df 14 close) 21 close) as (u & l & Hbb);
    [unfold rsi_frame; read_col | exact Hne |].
  unfold feature_engineering. rewrite Hrsi, bind_ok. cbn [fst snd].
  rewrite Hbb, bind_ok. cbn [fst snd].
  unfold output_columns, select.
  repeat (erewrite getitem_eq by (unfold bb_frame, rsi_frame; read_col);
          rewrite bind_ret_l).
  eexists. reflexivity.
Qed.

(** C6: the table the indicator engine returns has exactly the columns
    unix, RSI, lowerband, upperband, close, in that order; none of the
    intermediate columns is in it; its unix and close columns are the ones
    of the input table. *)
Theorem C6_output_projection (env : Env) (df : DataFrame) (unix : column)
        (close : series) :
  assoc "unix" df = Some unix ->
  assoc "close" df = Some (map CNum close) ->
  close <> [] ->
  exists tr out,
    feature_engineering env df = (tr, Ok out) /\
    columns out = ["unix"; "RSI"; "lowerband"; "upperband"; "close"] /\
    (forall name, In name intermediate_columns -> assoc name out = None) /\
    assoc "unix" out = Some unix /\
    assoc "close" out = Some (map CNum close).
Proof.
  intros Hunix Hclose Hne.
  destruct (feature_engineering_ok env df unix close Hunix Hclose Hne)
    as [tr Hrun].
  exists tr, (feature_frame env unix close).
  split; [exact Hrun |]. split; [reflexivity |].
  split; [| split; reflexivity].
  intros name Hin. unfold intermediate_columns in Hin. simpl in Hin.
  repeat (destruct Hin as [<- | Hin]; [reflexivity |]). contradiction.
Qed.

Lemma C6_output_projection_witness :
  assoc "unix" (candle_frame ramp_close)
  = Some (map (fun k => CNum (fin_nat k)) (seq 0 35)) /\
  assoc "close" (candle_frame ramp_close) = Some (map CNum ramp_close) /\
  ramp_close <> [] /\
  exists tr out,
    feature_engineering demo_env (candle_frame ramp_close) = (tr, Ok out) /\
    columns out = ["unix"; "RSI"; "lowerband"; "upperband"; "close"] /\
    (forall name, In name intermediate_columns -> assoc name out = None) /\
    assoc "unix" out = Some (map (fun k => CNum (fin_nat k)) (seq 0 35)) /\
    assoc "close" out = Some (map CNum ramp_close).
Proof.
  assert (H0 : assoc "unix" (candle_frame ramp_close)
               = Some (map (fun k => CNum (fin_nat k)) (seq 0 35)))
    by reflexivity.
  assert (H1 : assoc "close" (candle_frame ramp_close)
               = Some (map CNum ramp_close)) by reflexivity.
  assert (H2 : ramp_close <> []) by (vm_compute; discriminate).
  exact (conj H0 (conj H1 (conj H2
           (C6_output_projection demo_env (candle_frame ramp_close) _
              ramp_close H0 H1 H2)))).
Defined.

(* ================================================================= *)
(** * The CSV file *)

Lemma rolling_prefix agg (period : nat) (xs : series) (i : nat) :
  S i < period -> i < length xs ->
  nth_error (rolling agg period xs) i = Some NaN.
Proof.
  intros Hp Hi. rewrite rolling_nth by exact Hi.
  apply Nat.ltb_lt in Hp. now rewrite Hp.
Qed.





(* ================================================================= *)
(** * The driver: requests, failures and the loop over the pairs *)

Section Traces.
Variable P : event -> Prop.

Lemma emits_bind {A B} (m : IO A) (k : A -> IO B) :
  emits_only P m -> (forall a, emits_only P (k a)) ->
  emits_only P (bind m k).
Proof.
  unfold emits_only. intros Hm Hk.
  destruct m as [t [a | e]]; simpl in *; [| exact Hm].
  specialize (Hk a). destruct (k a) as [t' r]. simpl in *.
  apply Forall_app. now split.
Qed.

Lemma emits_ret {A} (a : A) : emits_only P (ret a).
Proof. constructor. Qed.

Lemma emits_raise {A} (e : exn) : emits_only P (@raise event A e).
Proof. constructor. Qed.

Lemma emits_lift {A} (o : outcome A) : emits_only P (lift_outcome o).
Proof. constructor. Qed.

Lemma emits_emit (ev : event) : P ev -> emits_only P (emit ev).
Proof. intros H. constructor; [exact H | constructor]. Qed.

Lemma emits_getitem df name : emits_only P (getitem df name).
Proof. unfold getitem. destruct (assoc name df); constructor. Qed.

Lemma emits_getf df name : emits_only P (getf df name).
Proof.
  unfold getf. apply emits_bind; [apply emits_getitem |].
  intros a. apply emits_lift.
Qed.

Lemma emits_iloc_last col : emits_only P (iloc_last col).
Proof. destruct col; constructor. Qed.

Lemma emits_select names df : emits_only P (select names df).
Proof.
  induction names as [| n names IH]; simpl; [apply emits_ret |].
  apply emits_bind; [apply emits_getitem | intros col].
  apply emits_bind; [exact IH | intros out]. apply emits_ret.
Qed.

Lemma emits_try {A} (body handler : IO A) :
  emits_only P body -> emits_only P handler ->
  emits_only P (try_except body handler).
Proof.
  unfold emits_only. intros Hb Hh.
  destruct body as [t [a | e]]; simpl in *; [exact Hb |].
  destruct handler as [t' r]. simpl in *. apply Forall_app. now split.
Qed.


Lemma emits_fold_m {A S} (body : S -> A -> IO S) (xs : list A) (acc : S) :
  (forall s x, emits_only P (body s x)) -> emits_only P (fold_m body xs acc).
Proof.
  intros H. revert acc. induction xs as [| x xs IH]; intros acc; simpl;
    [apply emits_ret |].
  apply emits_bind; [apply H | intros s; apply IH].
Qed.
End Traces.

(** Splits a computation into its steps; what is left is that each event
    emitted satisfies the predicate. *)
Ltac emits :=
  repeat first
    [ apply emits_ret | apply emits_raise | apply emits_lift
    | apply emits_getitem | apply emits_getf | apply emits_iloc_last
    | apply emits_select
    | apply emits_emit
    | apply emits_bind; [| intros ?] ].




(** After the request, [fill_with_latest_data] emits nothing. *)
Lemma decode_emits (P : event -> Prop) env (dataset : DataFrame) (text : string) :
  emits_only P
    (response_dict <- loads env text ;;
     records <- lift_outcome (py_iter response_dict) ;;
     fold_m (fun dataset record =>
               u <- lift_outcome (py_getitem record 0) ;;
               c <- lift_outcome (py_getitem record 4) ;;
               x <- lift_outcome (py_float env c) ;;
               ret (append_row dataset [("unix", to_cell u); ("close", CNum x)]))
            records dataset)%py.
Proof.
  apply emits_bind.
  - unfold loads. destruct (json_loads env text); constructor.
  - intros j. apply emits_bind; [apply emits_lift | intros records].
    apply emits_fold_m. intros s x. emits.
Qed.

Lemma fill_trace env (dataset : DataFrame) (fname_ext fname : string) :
  remove_extension fname_ext = Ok fname ->
  fst (fill_with_latest_data env dataset fname_ext) = [Get (klines_url fname)].
Proof.
  intros H. unfold fill_with_latest_data. rewrite H.
  change (lift_outcome (Ok fname)) with (@ret event _ fname).
  rewrite bind_ret_l. unfold requests_get.
  rewrite bind_assoc, bind_emit. cbn [fst]. f_equal.
  destruct (http_text env (klines_url fname)) as [text |]; [| reflexivity].
  rewrite bind_ret_l.
  pose proof (decode_emits (fun _ => False) env dataset text) as Hs.
  unfold emits_only in Hs.
  match goal with |- fst ?m = [] => destruct (fst m) as [| ev t] end;
    [reflexivity | inversion Hs; contradiction].
Qed.





Lemma download_data_known_freq env pairs freq :
  In freq ["min"; "hour"; "day"] ->
  download_data env pairs freq = for_each pairs (process_pair env).
Proof.
  intros H. unfold download_data. simpl in H.
  destruct H as [<- | [<- | [<- | []]]]; cbn [assoc time_dict String.eqb
    Ascii.eqb Bool.eqb]; now rewrite bind_ret_l.
Qed.



Lemma fst_bind_head {A B} (m : IO A) (k : A -> IO B) (ev : event) :
  hd_error (fst m) = Some ev -> hd_error (fst (bind m k)) = Some ev.
Proof.
  destruct m as [t [a | e]]; simpl; [| auto].
  destruct (k a) as [t' r]. simpl. now destruct t.
Qed.

(** C10: for a symbol without a dot, stripping the extension of
    symbol + ".csv" gives the symbol back, and the one request made for
    the pair is the klines URL of that symbol. *)
Theorem C10_symbol_round_trip (env : Env) (pair : string) :
  str_mem dot pair = false ->
  remove_extension (pair ++ extension) = Ok pair /\
  fst (fill_with_latest_data env [] (pair ++ extension))
  = [Get (klines_url pair)] /\
  hd_error (fst (process_pair env pair)) = Some (Get (klines_url pair)).
Proof.
  intros H. pose proof (remove_extension_append pair H) as Hr.
  pose proof (fill_trace env [] _ _ Hr) as Ht.
  split; [exact Hr |]. split; [exact Ht |].
  unfold process_pair, clean_dataset.
  apply fst_bind_head, fst_bind_head. now rewrite Ht.
Qed.

Lemma C10_symbol_round_trip_witness :
  str_mem dot "BTCUSDT" = false /\
  remove_extension ("BTCUSDT" ++ extension) = Ok "BTCUSDT" /\
  fst (fill_with_latest_data demo_env [] ("BTCUSDT" ++ extension))
  = [Get (klines_url "BTCUSDT")] /\
  hd_error (fst (process_pair demo_env "BTCUSDT"))
  = Some (Get (klines_url "BTCUSDT")).
Proof.
  assert (H : str_mem dot "BTCUSDT" = false) by reflexivity.
  exact (conj H (C10_symbol_round_trip demo_env "BTCUSDT" H)).
Defined.




(** A pair whose fetch raises ends the whole run: the exception leaves
    [download_data], nothing is printed for the pair and no later pair is
    requested. *)
Lemma fetch_failure_aborts env (p freq : string) (rest : list string) t e :
  In freq ["min"; "hour"; "day"] ->
  fill_with_latest_data env [] (p ++ extension) = (t, Raise e) ->
  download_data env (p :: rest) freq = (t, Raise e).
Proof.
  intros Hfreq Hfill. rewrite download_data_known_freq by exact Hfreq.
  apply for_each_raise. unfold process_pair, clean_dataset.
  now rewrite Hfill.
Qed.

(** C1 (the code departs from it): a failed fetch is not caught.  With
    BAD answered by the exchange's error object, HTML by a page that is
    not JSON, and DOWN unreachable, each run stops at the first pair with
    the exception, prints no failure line and never requests RAMP. *)
Theorem C1_fetch_failure_is_not_caught :
  download_data demo_env ["BAD"; "RAMP"] "min"
  = ([Get (klines_url "BAD")], Raise IndexError) /\
  download_data demo_env ["HTML"; "RAMP"] "min"
  = ([Get (klines_url "HTML")], Raise JSONDecodeError) /\
  download_data demo_env ["DOWN"; "RAMP"] "min"
  = ([Get (klines_url "DOWN")], Raise ConnectionError).
Proof. repeat split; vm_compute; reflexivity. Qed.

(* ================================================================= *)
(** * The rows the fetch appends *)

Lemma lift_ok {A} (a : A) : @lift_outcome event A (Ok a) = ret a.
Proof. reflexivity. Qed.

Lemma append_candle (unix : column) (close : series) (u : cell) (x : fval) :
  append_row (candle_table unix close) [("unix", u); ("close", CNum x)]
  = candle_table (unix ++ [u]) (close ++ [x]).
Proof.
  unfold append_row, candle_table. simpl. now rewrite map_app.
Qed.

Lemma fill_rows env (records : list json) (uxs : list (json * fval)) :
  Forall2 (decodes env) records uxs ->
  forall (dataset : DataFrame) (unix : column) (close : series),
    dataset = [] /\ unix = [] /\ close = []
    \/ dataset = candle_table unix close ->
    (fold_m (fun dataset record =>
               u <- lift_outcome (py_getitem record 0) ;;
               c <- lift_outcome (py_getitem record 4) ;;
               x <- lift_outcome (py_float env c) ;;
               ret (append_row dataset [("unix", to_cell u); ("close", CNum x)]))%py
            records dataset : IO DataFrame)
    = ret (match uxs, dataset with
           | [], _ => dataset
           | _, _ => candle_table (unix ++ map (fun ux => to_cell (fst ux)) uxs)
                                  (close ++ map snd uxs)
           end).
Proof.
  induction 1 as [| record [u x] records uxs (c & H0 & H4 & Hf) _ IH];
    intros dataset unix close Hshape.
  - reflexivity.
  - cbn [fold_m fst snd] in *. rewrite H0, H4.
    rewrite !bind_assoc, !lift_ok, !bind_ret_l, Hf, lift_ok, !bind_ret_l.
    assert (Hnext : append_row dataset [("unix", to_cell u); ("close", CNum x)]
                    = candle_table (unix ++ [to_cell u]) (close ++ [x])).
    { destruct Hshape as [(-> & -> & ->) | ->];
        [reflexivity | apply append_candle]. }
    rewrite Hnext.
    rewrite (IH _ (unix ++ [to_cell u])%list (close ++ [x])%list)
      by (right; reflexivity).
    cbn [map]. rewrite <- !app_assoc. cbn [app].
    now destruct uxs.
Qed.

(* ================================================================= *)
(** * Further properties of the program *)

(** ** File names and the symbol of the request *)

Lemma str_index_none (c : ascii) (s : string) :
  str_index c s = None <-> str_mem c s = false.
Proof.
  induction s as [| a s IH]; simpl; [tauto |].
  destruct (Ascii.eqb a c); simpl; [split; discriminate |].
  destruct (str_index c s); [| tauto].
  split; [discriminate |]. intros H. apply IH in H. discriminate.
Qed.

Lemma str_index_some (c : ascii) (s : string) (k : nat) :
  str_index c s = Some k ->
  str_mem c (str_take k s) = false /\
  exists rest, s = (str_take k s ++ String c rest)%string.
Proof.
  revert k. induction s as [| a s IH]; simpl; intros k H; [discriminate |].
  destruct (Ascii.eqb a c) eqn:E.
  - inversion H; subst k. apply Ascii.eqb_eq in E; subst a.
    split; [reflexivity | now exists s].
  - destruct (str_index c s) as [k' |]; [| discriminate].
    inversion H; subst k. destruct (IH k' eq_refl) as (Hm & rest & Hs).
    simpl. rewrite E, Hm. split; [reflexivity |].
    exists rest. now rewrite <- Hs.
Qed.

(** X1: [remove_extension] returns the part of the name before its first
    dot, which holds no dot itself; it raises [ValueError], and nothing
    else, exactly on a name without a dot. *)
Theorem remove_extension_spec (fname : string) :
  match remove_extension fname with
  | Ok stem =>
      str_mem dot stem = false /\
      exists rest, fname = (stem ++ String dot rest)%string
  | Raise e => e = ValueError /\ str_mem dot fname = false
  end.
Proof.
  unfold remove_extension.
  destruct (str_index dot fname) as [k |] eqn:E.
  - now apply str_index_some.
  - split; [reflexivity | now apply str_index_none].
Qed.

Lemma remove_extension_first_dot (stem rest : string) :
  str_mem dot stem = false ->
  remove_extension (stem ++ String dot rest) = Ok stem.
Proof.
  intros H. unfold remove_extension.
  now rewrite (str_index_append dot stem rest H), str_take_append.
Qed.

Lemma string_app_assoc (a b c : string) :
  ((a ++ b) ++ c = a ++ (b ++ c))%string.
Proof. induction a as [| x a IH]; simpl; [| rewrite IH]; reflexivity. Qed.

(** X2: for a pair that holds a dot, the symbol of the request is only the
    part of the pair before its first dot. *)
Theorem dotted_pair_requests_its_stem (env : Env) (stem rest : string) :
  str_mem dot stem = false ->
  fst (fill_with_latest_data env []
         ((stem ++ String dot rest) ++ extension)%string)
  = [Get (klines_url stem)] /\
  hd_error (fst (process_pair env (stem ++ String dot rest)))
  = Some (Get (klines_url stem)).
Proof.
  intros H.
  assert (Hr : remove_extension ((stem ++ String dot rest) ++ extension)
               = Ok stem).
  { rewrite string_app_assoc. cbn [String.append].
    now apply remove_extension_first_dot. }
  pose proof (fill_trace env [] _ _ Hr) as Ht.
  split; [exact Ht |].
  unfold process_pair, clean_dataset.
  apply fst_bind_head, fst_bind_head. now rewrite Ht.
Qed.

Lemma dotted_pair_requests_its_stem_witness :
  str_mem dot "BTC" = false /\
  fst (fill_with_latest_data demo_env []
         (("BTC" ++ String dot "USDT") ++ extension)%string)
  = [Get (klines_url "BTC")] /\
  hd_error (fst (process_pair demo_env ("BTC" ++ String dot "USDT")))
  = Some (Get (klines_url "BTC")).
Proof.
  assert (H : str_mem dot "BTC" = false) by reflexivity.
  exact (conj H (dotted_pair_requests_its_stem demo_env "BTC" "USDT" H)).
Defined.

(** X3: [flatten] concatenates the groups in order: it distributes over
    the concatenation of two lists of groups, and its elements are the
    elements of the groups. *)
Theorem flatten_concatenates {A} (a b : list (list A)) (x : A) :
  flatten (a ++ b) = (flatten a ++ flatten b)%list /\
  (In x (flatten a) <-> exists g, In g a /\ In x g).
Proof.
  assert (Hc : forall groups : list (list A), flatten groups = concat groups)
    by (now intros []).
  rewrite !Hc. split; [apply concat_app |].
  rewrite in_concat. reflexivity.
Qed.

(** ** What the fetch makes of the answer *)

Lemma fold_m_app {A S} (body : S -> A -> IO S) (xs ys : list A) (acc : S) :
  fold_m body (xs ++ ys) acc = bind (fold_m body xs acc) (fold_m body ys).
Proof.
  revert acc. induction xs as [| x xs IH]; intros acc; cbn [fold_m app].
  - now rewrite bind_ret_l.
  - rewrite bind_assoc. destruct (body acc x) as [t [s | e]]; simpl;
      [now rewrite IH | reflexivity].
Qed.

(** The request and the decoding of the answer, for a file name whose
    stem is [p] and an answer that is JSON. *)
Lemma fill_unfold env (dataset : DataFrame) (p text : string) (v : json) :
  str_mem dot p = false ->
  http_text env (klines_url p) = Some text ->
  json_loads env text = Some v ->
  fill_with_latest_data env dataset (p ++ extension)
  = (emit (Get (klines_url p)) ;;;
     records <- lift_outcome (py_iter v) ;;
     fold_m (fun dataset record =>
               u <- lift_outcome (py_getitem record 0) ;;
               c <- lift_outcome (py_getitem record 4) ;;
               x <- lift_outcome (py_float env c) ;;
               ret (append_row dataset [("unix", to_cell u); ("close", CNum x)]))
            records dataset)%py.
Proof.
  intros Hdot Hhttp Hjson. unfold fill_with_latest_data.
  rewrite (remove_extension_append p Hdot), lift_ok, bind_ret_l.
  unfold requests_get. rewrite bind_assoc, !bind_emit.
  rewrite Hhttp, bind_ret_l. unfold loads. now rewrite Hjson, bind_ret_l.
Qed.

Lemma fill_rows_from_empty env (records : list json)
      (uxs : list (json * fval)) :
  Forall2 (decodes env) records uxs ->
  (fold_m (fun dataset record =>
             u <- lift_outcome (py_getitem record 0) ;;
             c <- lift_outcome (py_getitem record 4) ;;
             x <- lift_outcome (py_float env c) ;;
             ret (append_row dataset [("unix", to_cell u); ("close", CNum x)]))%py
          records [] : IO DataFrame)
  = ret (match uxs with
         | [] => []
         | _ => candle_table (map (fun ux => to_cell (fst ux)) uxs)
                             (map snd uxs)
         end).
Proof.
  intros H. rewrite (fill_rows env records uxs H [] [] []) by (left; auto).
  reflexivity.
Qed.

Lemma fill_table env (p text : string) (records : list json)
      (uxs : list (json * fval)) :
  str_mem dot p = false ->
  http_text env (klines_url p) = Some text ->
  json_loads env text = Some (JArr records) ->
  Forall2 (decodes env) records uxs ->
  fill_with_latest_data env [] (p ++ extension)
  = ([Get (klines_url p)],
     Ok (match uxs with
         | [] => []
         | _ => candle_table (map (fun ux => to_cell (fst ux)) uxs)
                             (map snd uxs)
         end)).
Proof.
  intros Hdot Hhttp Hjson Hdec.
  rewrite (fill_unfold env [] p text _ Hdot Hhttp Hjson), bind_emit.
  cbn [py_iter]. rewrite lift_ok, bind_ret_l.
  now rewrite (fill_rows_from_empty env records uxs Hdec).
Qed.

Lemma candle_records_decode env (records : list json)
      (txs : list (Z * fval)) :
  Forall2 (candle_record env) records txs ->
  Forall2 (decodes env) records
          (map (fun tx => (JNum (inject_Z (fst tx)), snd tx)) txs).
Proof.
  induction 1 as [| record tx records txs (H0 & _ & s & H4 & Hf) _ IH];
    simpl; constructor; [| exact IH].
  exists (JStr s). cbn [fst snd py_float]. rewrite Hf. now repeat split.
Qed.

Lemma fill_candles env (p text : string) (records : list json)
      (txs : list (Z * fval)) :
  str_mem dot p = false ->
  http_text env (klines_url p) = Some text ->
  json_loads env text = Some (JArr records) ->
  Forall2 (candle_record env) records txs ->
  fill_with_latest_data env [] (p ++ extension)
  = ([Get (klines_url p)],
     Ok (match txs with
         | [] => []
         | _ => candle_table (timestamps txs) (closes txs)
         end)).
Proof.
  intros Hdot Hhttp Hjson Hrec.
  rewrite (fill_table env p text records _ Hdot Hhttp Hjson
             (candle_records_decode env records txs Hrec)).
  destruct txs as [| tx txs]; [reflexivity |].
  unfold timestamps, closes. now rewrite !map_map.
Qed.

(** X4: when the answer is an array of records as the exchange sends
    them (an integer time stamp at entry 0, the close as a string at
    entry 4), the fetch makes the one request and returns the table of
    the candles in the order of the answer.  For an empty array the table
    has no column at all. *)
Theorem fill_returns_the_candles env (p text : string) (records : list json)
        (txs : list (Z * fval)) :
  str_mem dot p = false ->
  http_text env (klines_url p) = Some text ->
  json_loads env text = Some (JArr records) ->
  Forall2 (candle_record env) records txs ->
  fill_with_latest_data env [] (p ++ extension)
  = ([Get (klines_url p)],
     Ok (match txs with
         | [] => []
         | _ => candle_table (timestamps txs) (closes txs)
         end)).
Proof.
  intros Hdot Hhttp Hjson Hrec.
  rewrite (fill_unfold env [] p text _ Hdot Hhttp Hjson), bind_emit.
  cbn [py_iter]. rewrite lift_ok, bind_ret_l.
  rewrite (fill_rows_from_empty env records _
             (candle_records_decode env records txs Hrec)).
  destruct txs as [| tx txs]; [reflexivity |].
  unfold timestamps, closes. now rewrite !map_map.
Qed.

Lemma three_quotes_are_candles (v : json) :
  Forall2 (candle_record (quotes_env v)) three_quotes three_candles.
Proof.
  repeat constructor; cbn [fst snd];
    try (apply Z.leb_le; reflexivity);
    eexists; split; reflexivity.
Qed.

Lemma fill_returns_the_candles_witness :
  str_mem dot "BTCUSDT" = false /\
  http_text (quotes_env (JArr three_quotes)) (klines_url "BTCUSDT")
  = Some "answer" /\
  json_loads (quotes_env (JArr three_quotes)) "answer"
  = Some (JArr three_quotes) /\
  Forall2 (candle_record (quotes_env (JArr three_quotes)))
          three_quotes three_candles /\
  fill_with_latest_data (quotes_env (JArr three_quotes)) []
    ("BTCUSDT" ++ extension)
  = ([Get (klines_url "BTCUSDT")],
     Ok (match three_candles with
         | [] => []
         | _ => candle_table (timestamps three_candles) (closes three_candles)
         end)).
Proof.
  assert (H0 : str_mem dot "BTCUSDT" = false) by reflexivity.
  assert (H1 : http_text (quotes_env (JArr three_quotes))
                 (klines_url "BTCUSDT") = Some "answer") by reflexivity.
  assert (H2 : json_loads (quotes_env (JArr three_quotes)) "answer"
               = Some (JArr three_quotes)) by reflexivity.
  pose proof (three_quotes_are_candles (JArr three_quotes)) as H3.
  exact (conj H0 (conj H1 (conj H2 (conj H3
           (fill_returns_the_candles (quotes_env (JArr three_quotes))
              "BTCUSDT" "answer" three_quotes three_candles
              H0 H1 H2 H3))))).
Defined.

(** X5: one record the loop cannot read loses the whole answer: after
    any number of records as the exchange sends them, a record without
    entry 0 or entry 4, or with an entry 4 that [float] refuses (a text
    that is no number, an integer too large, a list, null), makes the
    fetch raise that exception, and no table is returned. *)
Theorem fill_stops_at_a_bad_record env (p text : string)
        (good rest : list json) (bad : json) (txs : list (Z * fval))
        (e : exn) :
  str_mem dot p = false ->
  http_text env (klines_url p) = Some text ->
  json_loads env text = Some (JArr (good ++ bad :: rest)) ->
  Forall2 (candle_record env) good txs ->
  rejects env bad e ->
  fill_with_latest_data env [] (p ++ extension)
  = ([Get (klines_url p)], Raise e).
Proof.
  intros Hdot Hhttp Hjson Hrec Hbad.
  pose proof (candle_records_decode env good txs Hrec) as Hdec.
  rewrite (fill_unfold env [] p text _ Hdot Hhttp Hjson), bind_emit.
  cbn [py_iter]. rewrite lift_ok, bind_ret_l.
  rewrite fold_m_app, (fill_rows_from_empty env good _ Hdec), bind_ret_l.
  cbn [fold_m].
  destruct Hbad as [H0 | [(u & H0 & H4) | (u & c & H0 & H4 & Hf)]].
  - now rewrite H0.
  - now rewrite H0, H4.
  - rewrite H0, H4, bind_assoc, lift_ok, bind_ret_l.
    rewrite bind_assoc, lift_ok, bind_ret_l. now rewrite Hf.
Qed.

Lemma fill_stops_at_a_bad_record_witness :
  str_mem dot "BTCUSDT" = false /\
  http_text (quotes_env (JArr (three_quotes ++ huge_close :: three_quotes)))
    (klines_url "BTCUSDT") = Some "answer" /\
  json_loads (quotes_env (JArr (three_quotes ++ huge_close :: three_quotes)))
    "answer"
  = Some (JArr (three_quotes ++ huge_close :: three_quotes)) /\
  Forall2
    (candle_record
       (quotes_env (JArr (three_quotes ++ huge_close :: three_quotes))))
    three_quotes three_candles /\
  rejects (quotes_env (JArr (three_quotes ++ huge_close :: three_quotes)))
    huge_close OverflowError /\
  fill_with_latest_data
    (quotes_env (JArr (three_quotes ++ huge_close :: three_quotes))) []
    ("BTCUSDT" ++ extension)
  = ([Get (klines_url "BTCUSDT")], Raise OverflowError).
Proof.
  assert (H0 : str_mem dot "BTCUSDT" = false) by reflexivity.
  assert (H1 : http_text
                 (quotes_env (JArr (three_quotes ++ huge_close :: three_quotes)))
                 (klines_url "BTCUSDT") = Some "answer") by reflexivity.
  assert (H2 : json_loads
                 (quotes_env (JArr (three_quotes ++ huge_close :: three_quotes)))
                 "answer"
               = Some (JArr (three_quotes ++ huge_close :: three_quotes)))
    by reflexivity.
  pose proof (three_quotes_are_candles
                (JArr (three_quotes ++ huge_close :: three_quotes))) as H3.
  assert (H4 : rejects
                 (quotes_env (JArr (three_quotes ++ huge_close :: three_quotes)))
                 huge_close OverflowError).
  { right. right. do 2 eexists. repeat split; vm_compute; reflexivity. }
  exact (conj H0 (conj H1 (conj H2 (conj H3 (conj H4
           (fill_stops_at_a_bad_record
              (quotes_env (JArr (three_quotes ++ huge_close :: three_quotes)))
              "BTCUSDT" "answer" three_quotes three_quotes huge_close
              three_candles OverflowError H0 H1 H2 H3 H4)))))).
Defined.

Lemma chars_length (s : string) : length (chars s) = String.length s.
Proof. induction s as [| a s IH]; simpl; [| rewrite IH]; reflexivity. Qed.

Lemma short_string_rejected env (k : string) :
  String.length k < 5 -> rejects env (JStr k) IndexError.
Proof.
  intros H. unfold rejects. cbn [py_getitem].
  assert (H4 : nth_error (chars k) 4 = None)
    by (apply nth_error_None; rewrite chars_length; lia).
  rewrite H4. destruct (nth_error (chars k) 0); [right; left; eauto | now left].
Qed.

Lemma rows_stop_at_bad env (good rest : list json) (bad : json)
      (uxs : list (json * fval)) (e : exn) :
  Forall2 (decodes env) good uxs ->
  rejects env bad e ->
  (fold_m (fun dataset record =>
             u <- lift_outcome (py_getitem record 0) ;;
             c <- lift_outcome (py_getitem record 4) ;;
             x <- lift_outcome (py_float env c) ;;
             ret (append_row dataset [("unix", to_cell u); ("close", CNum x)]))%py
          (good ++ bad :: rest) [] : IO DataFrame)
  = raise e.
Proof.
  intros Hdec Hbad.
  rewrite fold_m_app, (fill_rows_from_empty env good uxs Hdec), bind_ret_l.
  cbn [fold_m].
  destruct Hbad as [H0 | [(u & H0 & H4) | (u & c & H0 & H4 & Hf)]].
  - now rewrite H0.
  - now rewrite H0, H4.
  - rewrite H0, H4, bind_assoc, lift_ok, bind_ret_l.
    rewrite bind_assoc, lift_ok, bind_ret_l. now rewrite Hf.
Qed.

(** X6: an answer that is JSON but not an array is not recognised as a
    failure.  A bare number, boolean or null raises [TypeError]; a
    non-empty string is walked character by character and raises
    [IndexError]; an object is walked key by key and raises [IndexError]
    when its first key has fewer than five characters (as "code" has);
    the empty string and the empty object pass as no candles at all. *)
Theorem fill_on_a_non_array env (p text : string) (v : json) :
  str_mem dot p = false ->
  http_text env (klines_url p) = Some text ->
  json_loads env text = Some v ->
  match v with
  | JNull | JBool _ | JNum _ =>
      fill_with_latest_data env [] (p ++ extension)
      = ([Get (klines_url p)], Raise TypeError)
  | JStr EmptyString | JObj [] =>
      fill_with_latest_data env [] (p ++ extension)
      = ([Get (klines_url p)], Ok [])
  | JStr (String _ _) =>
      fill_with_latest_data env [] (p ++ extension)
      = ([Get (klines_url p)], Raise IndexError)
  | JObj ((key, _) :: _) =>
      String.length key < 5 ->
      fill_with_latest_data env [] (p ++ extension)
      = ([Get (klines_url p)], Raise IndexError)
  | JArr _ => True
  end.
Proof.
  intros Hdot Hhttp Hjson.
  rewrite (fill_unfold env [] p text v Hdot Hhttp Hjson), bind_emit.
  destruct v as [| b | q | s | items | fields]; try reflexivity; try exact I.
  - destruct s as [| a s]; [reflexivity |].
    cbn [py_iter chars map]. rewrite lift_ok, bind_ret_l.
    assert (Hbad : rejects env (JStr (String a EmptyString)) IndexError)
      by (apply short_string_rejected; simpl; lia).
    pose proof (rows_stop_at_bad env [] (map JStr (chars s)) _ [] IndexError
                  (Forall2_nil _) Hbad) as Hr.
    cbn [app] in Hr. now rewrite Hr.
  - destruct fields as [| [key w] fields]; [reflexivity |].
    intros Hshort. cbn [py_iter map fst]. rewrite lift_ok, bind_ret_l.
    pose proof (rows_stop_at_bad env []
                  (map (fun kv => JStr (fst kv)) fields) _ [] IndexError
                  (Forall2_nil _) (short_string_rejected env key Hshort)) as Hr.
    cbn [app] in Hr. now rewrite Hr.
Qed.

Lemma fill_on_a_non_array_witness :
  str_mem dot "BAD" = false /\
  http_text demo_env (klines_url "BAD") = Some "bad" /\
  json_loads demo_env "bad" = Some invalid_symbol /\
  String.length "code" < 5 /\
  fill_with_latest_data demo_env [] ("BAD" ++ extension)
  = ([Get (klines_url "BAD")], Raise IndexError).
Proof.
  assert (H0 : str_mem dot "BAD" = false) by reflexivity.
  assert (H1 : http_text demo_env (klines_url "BAD") = Some "bad")
    by reflexivity.
  assert (H2 : json_loads demo_env "bad" = Some invalid_symbol) by reflexivity.
  assert (H3 : String.length "code" < 5) by (simpl; lia).
  exact (conj H0 (conj H1 (conj H2 (conj H3
           (fill_on_a_non_array demo_env "BAD" "bad" invalid_symbol
              H0 H1 H2 H3))))).
Defined.

(** ** The indicator engine on a table it cannot work on *)

(** X7: on a table without a close column, [set_RSI], [set_BB] and
    [feature_engineering] raise [KeyError] before they print anything. *)
Theorem engine_needs_a_close_column env (df : DataFrame) (period : nat) :
  assoc "close" df = None ->
  set_RSI df period = ([], Raise KeyError) /\
  set_BB env df period = ([], Raise KeyError) /\
  feature_engineering env df = ([], Raise KeyError).
Proof.
  intros H.
  assert (Hget : getf df "close" = raise KeyError)
    by (unfold getf, getitem; now rewrite H).
  assert (Hrsi : forall n, set_RSI df n = ([], Raise KeyError))
    by (intros n; unfold set_RSI; now rewrite Hget).
  split; [apply Hrsi |]. split.
  - unfold set_BB. now rewrite Hget.
  - unfold feature_engineering. now rewrite Hrsi.
Qed.

Lemma engine_needs_a_close_column_witness :
  assoc "close" ([] : DataFrame) = None /\
  set_RSI [] 14 = ([], Raise KeyError) /\
  set_BB demo_env [] 21 = ([], Raise KeyError) /\
  feature_engineering demo_env [] = ([], Raise KeyError).
Proof.
  assert (H : assoc "close" ([] : DataFrame) = None) by reflexivity.
  exact (conj H (engine_needs_a_close_column demo_env [] _ H)).
Defined.

(** X8: an answer with no candle (the empty array) is not caught either:
    the table has no close column, the engine raises [KeyError], and the
    run ends there, with no file, no line printed, and no later pair
    requested. *)
Theorem empty_answer_ends_the_run env (p text freq : string)
        (rest : list string) :
  In freq ["min"; "hour"; "day"] ->
  str_mem dot p = false ->
  http_text env (klines_url p) = Some text ->
  json_loads env text = Some (JArr []) ->
  download_data env (p :: rest) freq = ([Get (klines_url p)], Raise KeyError).
Proof.
  intros Hfreq Hdot Hhttp Hjson.
  rewrite download_data_known_freq by exact Hfreq.
  apply for_each_raise. unfold process_pair, clean_dataset.
  rewrite (fill_table env p text [] [] Hdot Hhttp Hjson) by constructor.
  rewrite bind_assoc, bind_ok. cbn [fst snd].
  reflexivity.
Qed.

Lemma empty_answer_ends_the_run_witness :
  In "min" ["min"; "hour"; "day"] /\
  str_mem dot "NEW" = false /\
  http_text (answer_env (JArr [])) (klines_url "NEW") = Some "answer" /\
  json_loads (answer_env (JArr [])) "answer" = Some (JArr []) /\
  download_data (answer_env (JArr [])) ("NEW" :: ["RAMP"]) "min"
  = ([Get (klines_url "NEW")], Raise KeyError).
Proof.
  assert (H0 : In "min" ["min"; "hour"; "day"]) by (simpl; auto).
  assert (H1 : str_mem dot "NEW" = false) by reflexivity.
  assert (H2 : http_text (answer_env (JArr [])) (klines_url "NEW")
               = Some "answer") by reflexivity.
  assert (H3 : json_loads (answer_env (JArr [])) "answer" = Some (JArr []))
    by reflexivity.
  exact (conj H0 (conj H1 (conj H2 (conj H3
           (empty_answer_ends_the_run (answer_env (JArr [])) "NEW" "answer"
              "min" ["RAMP"] H0 H1 H2 H3))))).
Defined.

(** X9: on a table whose close column has no row, [set_RSI] prints the
    empty head of the table and then raises [IndexError] at the last RSI
    value; [set_BB] raises [IndexError] before it prints. *)
Theorem engine_needs_a_row env (df : DataFrame) (period : nat) :
  assoc "close" df = Some [] ->
  (exists head, set_RSI df period = ([PrintFrame head], Raise IndexError)) /\
  set_BB env df period = ([], Raise IndexError).
Proof.
  intros H. change (@nil cell) with (map CNum []) in H. split.
  - unfold set_RSI. repeat run_step. cbn [fst snd]. eexists. reflexivity.
  - unfold set_BB. repeat run_step. reflexivity.
Qed.

Lemma engine_needs_a_row_witness :
  assoc "close" (candle_table [] []) = Some [] /\
  (exists head,
      set_RSI (candle_table [] []) 14 = ([PrintFrame head], Raise IndexError)) /\
  set_BB demo_env (candle_table [] []) 21 = ([], Raise IndexError).
Proof.
  assert (H : assoc "close" (candle_table [] []) = Some []) by reflexivity.
  exact (conj H (engine_needs_a_row demo_env (candle_table [] []) _ H)).
Defined.

(** ** What the engine leaves alone *)

Lemma assoc_set_col_other (name m : string) (col : column) (df : DataFrame) :
  name <> m -> assoc m (set_col name col df) = assoc m df.
Proof.
  intros H. rewrite assoc_set_col.
  destruct (String.eqb name m) eqn:E; [| reflexivity].
  apply String.eqb_eq in E. contradiction.
Qed.

(** X10: [set_RSI] and [set_BB] change no column but the ones they
    assign: every other column of the table they return is the column of
    the table they were given. *)
Theorem engine_keeps_other_columns env (df : DataFrame) (close : series)
        (name : string) :
  assoc "close" df = Some (map CNum close) ->
  close <> [] ->
  exists t1 out1 t2 out2,
    set_RSI df 14 = (t1, Ok out1) /\
    set_BB env df 21 = (t2, Ok out2) /\
    (~ In name ["Diff"; "Up"; "Down"; "avg_up"; "avg_down"; "RS"; "RSI"] ->
     assoc name out1 = assoc name df) /\
    (~ In name ["20MA"; "SD"; "upperband"; "lowerband"] ->
     assoc name out2 = assoc name df).
Proof.
  intros Hclose Hne.
  destruct (set_RSI_ok df 14 close Hclose Hne) as [v Hrsi].
  destruct (set_BB_ok env df 21 close Hclose Hne) as (u & l & Hbb).
  do 4 eexists. split; [exact Hrsi |]. split; [exact Hbb |].
  split; intros Hn; unfold rsi_frame, bb_frame, setf;
    repeat (rewrite assoc_set_col_other
              by (intros <-; apply Hn; simpl; tauto));
    reflexivity.
Qed.

Lemma engine_keeps_other_columns_witness :
  assoc "close" (candle_frame ramp_close) = Some (map CNum ramp_close) /\
  ramp_close <> [] /\
  exists t1 out1 t2 out2,
    set_RSI (candle_frame ramp_close) 14 = (t1, Ok out1) /\
    set_BB demo_env (candle_frame ramp_close) 21 = (t2, Ok out2) /\
    (~ In "unix" ["Diff"; "Up"; "Down"; "avg_up"; "avg_down"; "RS"; "RSI"] ->
     assoc "unix" out1 = assoc "unix" (candle_frame ramp_close)) /\
    (~ In "unix" ["20MA"; "SD"; "upperband"; "lowerband"] ->
     assoc "unix" out2 = assoc "unix" (candle_frame ramp_close)).
Proof.
  assert (H1 : assoc "close" (candle_frame ramp_close)
               = Some (map CNum ramp_close)) by reflexivity.
  assert (H2 : ramp_close <> []) by (vm_compute; discriminate).
  exact (conj H1 (conj H2
           (engine_keeps_other_columns demo_env (candle_frame ramp_close)
              ramp_close "unix" H1 H2))).
Defined.

(** ** Gains, losses and the RSI formula *)

Lemma gain_loss_scalar (c : Q) :
  exists u d,
    up_of (Fin c) = Fin u /\ down_of (Fin c) = Fin d /\
    (0 <= u)%Q /\ (0 <= d)%Q /\ ((u == 0)%Q \/ (d == 0)%Q) /\
    (u - d == c)%Q.
Proof.
  unfold up_of, down_of, fgt, flt, f0, fin_z. change (inject_Z 0) with 0%Q.
  destruct (Qltb c 0) eqn:E1; destruct (Qltb 0 c) eqn:E2;
    try apply Qltb_lt in E1; try apply Qltb_ge in E1;
    try apply Qltb_lt in E2; try apply Qltb_ge in E2; unfold fabs;
    do 2 eexists; (split; [reflexivity |]); (split; [reflexivity |]);
    rewrite ?Qred_correct.
  - lra.
  - rewrite (Qabs_neg c) by lra. repeat split; lra.
  - change (Qabs 0) with 0%Q. repeat split; lra.
  - rewrite (Qabs_neg c) by lra. repeat split; lra.
Qed.

(** What [Up] and [Down] make of one difference, whatever it is. *)
Lemma gain_loss_of (d : fval) :
  (d = NaN -> up_of d = NaN /\ down_of d = NaN) /\
  (d <> NaN ->
   fle f0 (up_of d) = true /\ fle f0 (down_of d) = true /\
   (fzero (up_of d) = true \/ fzero (down_of d) = true) /\
   feq (fsub (up_of d) (down_of d)) d = true).
Proof.
  destruct d as [| | | c].
  - split; [now split | congruence].
  - split; [discriminate | intros _]. repeat split. now left.
  - split; [discriminate | intros _]. repeat split. now right.
  - split; [discriminate | intros _].
    destruct (gain_loss_scalar c) as (u & w & -> & -> & Hu & Hw & Hz & Hc).
    unfold fle, f0, fin_z, fzero, fsub, feq. change (inject_Z 0) with 0%Q.
    rewrite !Qle_bool_iff, !Qeq_bool_iff, Qred_correct. tauto.
Qed.

Lemma rsi_frame_gain_loss df p close i :
  cell_at (rsi_frame df p close) "Diff" i
  = option_map CNum (nth_error (diff close) i) /\
  cell_at (rsi_frame df p close) "Up" i
  = option_map CNum (nth_error (up_series close) i) /\
  cell_at (rsi_frame df p close) "Down" i
  = option_map CNum (nth_error (down_series close) i).
Proof. unfold rsi_frame. repeat split; now read_cell. Qed.

(** X11: in the table [set_RSI] returns, row 0 of Diff is missing; in a
    row whose Diff is missing Up and Down are missing too; in every other
    row Up and Down are not negative, at least one of them is zero, and
    Up - Down equals Diff. *)
Theorem gain_and_loss_split_the_change (df : DataFrame) (close : series) :
  assoc "close" df = Some (map CNum close) ->
  close <> [] ->
  exists tr out,
    set_RSI df 14 = (tr, Ok out) /\
    forall i, i < length close ->
      exists d u w,
        cell_at out "Diff" i = Some (CNum d) /\
        cell_at out "Up" i = Some (CNum u) /\
        cell_at out "Down" i = Some (CNum w) /\
        (i = 0 -> d = NaN) /\
        (d = NaN -> u = NaN /\ w = NaN) /\
        (d <> NaN ->
         fle f0 u = true /\ fle f0 w = true /\
         (fzero u = true \/ fzero w = true) /\
         feq (fsub u w) d = true).
Proof.
  intros Hclose Hne.
  destruct (set_RSI_ok df 14 close Hclose Hne) as [v Hrun].
  do 2 eexists. split; [exact Hrun |].
  intros i Hi.
  destruct (rsi_frame_gain_loss df 14 close i) as (-> & -> & ->).
  rewrite up_series_nth, down_series_nth, diff_nth by exact Hi.
  cbn [option_map].
  do 3 eexists. repeat (split; [reflexivity |]).
  split; [now intros -> |]. apply gain_loss_of.
Qed.

Lemma gain_and_loss_split_the_change_witness :
  assoc "close" (candle_frame gap_close) = Some (map CNum gap_close) /\
  gap_close <> [] /\
  exists tr out,
    set_RSI (candle_frame gap_close) 14 = (tr, Ok out) /\
    forall i, i < length gap_close ->
      exists d u w,
        cell_at out "Diff" i = Some (CNum d) /\
        cell_at out "Up" i = Some (CNum u) /\
        cell_at out "Down" i = Some (CNum w) /\
        (i = 0 -> d = NaN) /\
        (d = NaN -> u = NaN /\ w = NaN) /\
        (d <> NaN ->
         fle f0 u = true /\ fle f0 w = true /\
         (fzero u = true \/ fzero w = true) /\
         feq (fsub u w) d = true).
Proof.
  assert (H1 : assoc "close" (candle_frame gap_close)
               = Some (map CNum gap_close)) by reflexivity.
  assert (H2 : gap_close <> []) by (vm_compute; discriminate).
  exact (conj H1 (conj H2
           (gain_and_loss_split_the_change (candle_frame gap_close)
              gap_close H1 H2))).
Defined.

(** With no average gain and a positive average loss RS is 0 and the RSI
    is exactly 0. *)
Lemma rsi_of_zero_gain (u d : fval) :
  fzero u = true -> flt f0 d = true -> rsi_of_rs (fdiv u d) = f0.
Proof.
  destruct u as [| | | a]; try discriminate. cbn [fzero]. intros Ha.
  apply Qeq_bool_iff in Ha.
  destruct d as [| | | b]; try discriminate; [reflexivity |].
  unfold flt, f0, fin_z. change (inject_Z 0) with 0%Q. intros Hb.
  apply Qltb_lt in Hb.
  assert (Eb : Qeq_bool b 0 = false) by (apply Qeq_bool_false; lra).
  unfold fdiv. rewrite Eb.
  assert (Hq : Qred (a / b) = 0%Q).
  { change 0%Q with (Qred 0). apply Qred_complete. rewrite Ha.
    unfold Qdiv. ring. }
  rewrite Hq. reflexivity.
Qed.

(** X12: in the table [set_RSI] returns, at every row whose average gain
    is 0 and whose average loss is positive the RSI is exactly 0. *)
Theorem rsi_is_zero_without_gain (df : DataFrame) (close : series) :
  assoc "close" df = Some (map CNum close) ->
  close <> [] ->
  exists tr out,
    set_RSI df 14 = (tr, Ok out) /\
    forall i u d,
      cell_at out "avg_up" i = Some (CNum u) ->
      cell_at out "avg_down" i = Some (CNum d) ->
      fzero u = true -> flt f0 d = true ->
      cell_at out "RSI" i = Some (CNum f0).
Proof.
  intros Hclose Hne.
  destruct (set_RSI_ok df 14 close Hclose Hne) as [v Hrun].
  do 2 eexists. split; [exact Hrun |].
  intros i u d Hu Hd Hz Hpos.
  rewrite rsi_frame_avg_up in Hu. apply option_map_CNum_inv in Hu.
  rewrite rsi_frame_avg_down in Hd. apply option_map_CNum_inv in Hd.
  rewrite rsi_frame_RSI, rsi_series_nth, rs_series_nth, Hu, Hd.
  cbn [option_map]. now rewrite (rsi_of_zero_gain u d Hz Hpos).
Qed.

Lemma rsi_is_zero_without_gain_witness :
  assoc "close" (candle_frame (rev ramp_close))
  = Some (map CNum (rev ramp_close)) /\
  rev ramp_close <> [] /\
  exists tr out,
    set_RSI (candle_frame (rev ramp_close)) 14 = (tr, Ok out) /\
    forall i u d,
      cell_at out "avg_up" i = Some (CNum u) ->
      cell_at out "avg_down" i = Some (CNum d) ->
      fzero u = true -> flt f0 d = true ->
      cell_at out "RSI" i = Some (CNum f0).
Proof.
  assert (H1 : assoc "close" (candle_frame (rev ramp_close))
               = Some (map CNum (rev ramp_close))) by reflexivity.
  assert (H2 : rev ramp_close <> []) by (vm_compute; discriminate).
  exact (conj H1 (conj H2
           (rsi_is_zero_without_gain (candle_frame (rev ramp_close))
              (rev ramp_close) H1 H2))).
Defined.

Lemma diff_shift (c : Q) (qs : list Q) :
  diff (map Fin (map (Qplus c) qs)) = diff (map Fin qs).
Proof.
  unfold diff. rewrite !length_map. apply map_ext_in.
  intros [| j] Hin; [reflexivity |].
  apply in_seq in Hin.
  rewrite !at_map_Fin by (rewrite ?length_map; lia).
  rewrite (nth_indep _ 0%Q (c + 0)%Q) by (rewrite length_map; lia).
  rewrite (nth_indep (map _ _) 0%Q (c + 0)%Q) by (rewrite length_map; lia).
  rewrite !map_nth. cbn [fsub]. f_equal. apply Qred_complete. ring.
Qed.

(** X13: the RSI looks at the changes of the close only: adding one
    constant to every close of a finite series leaves the whole RSI
    column as it is. *)
Theorem rsi_ignores_a_shift (df1 df2 : DataFrame) (qs : list Q) (c : Q) :
  assoc "close" df1 = Some (map CNum (map Fin qs)) ->
  assoc "close" df2 = Some (map CNum (map Fin (map (Qplus c) qs))) ->
  qs <> [] ->
  exists t1 out1 t2 out2,
    set_RSI df1 14 = (t1, Ok out1) /\
    set_RSI df2 14 = (t2, Ok out2) /\
    assoc "RSI" out2 = assoc "RSI" out1.
Proof.
  intros H1 H2 Hne.
  destruct (set_RSI_ok df1 14 _ H1) as [v1 Hr1]; [now destruct qs |].
  destruct (set_RSI_ok df2 14 _ H2) as [v2 Hr2]; [now destruct qs |].
  do 4 eexists. split; [exact Hr1 |]. split; [exact Hr2 |].
  unfold rsi_frame, setf. rewrite !assoc_set_col. cbn [String.eqb Ascii.eqb
    Bool.eqb]. do 2 f_equal.
  unfold rsi_series, rs_series, avg_up_series, avg_down_series, up_series,
    down_series.
  now rewrite diff_shift.
Qed.

Lemma rsi_ignores_a_shift_witness :
  assoc "close" (candle_frame (map Fin wavy_prices))
  = Some (map CNum (map Fin wavy_prices)) /\
  assoc "close" (candle_frame (map Fin (map (Qplus 1000) wavy_prices)))
  = Some (map CNum (map Fin (map (Qplus 1000) wavy_prices))) /\
  wavy_prices <> [] /\
  exists t1 out1 t2 out2,
    set_RSI (candle_frame (map Fin wavy_prices)) 14 = (t1, Ok out1) /\
    set_RSI (candle_frame (map Fin (map (Qplus 1000) wavy_prices))) 14
    = (t2, Ok out2) /\
    assoc "RSI" out2 = assoc "RSI" out1.
Proof.
  assert (H1 : assoc "close" (candle_frame (map Fin wavy_prices))
               = Some (map CNum (map Fin wavy_prices))) by reflexivity.
  assert (H2 : assoc "close"
                 (candle_frame (map Fin (map (Qplus 1000) wavy_prices)))
               = Some (map CNum (map Fin (map (Qplus 1000) wavy_prices))))
    by reflexivity.
  assert (H3 : wavy_prices <> []) by discriminate.
  exact (conj H1 (conj H2 (conj H3
           (rsi_ignores_a_shift _ _ wavy_prices 1000 H1 H2 H3)))).
Defined.

(** ** Windows that hold a missing or an infinite value *)

(** A rolling aggregate is missing as soon as one entry of its window is
    missing or infinite. *)
Lemma rolling_missing agg (period : nat) (xs : series) (i j : nat) :
  i < length xs -> S i - period <= j <= i ->
  no_observation (at_ xs j) = true ->
  nth_error (rolling agg period xs) i = Some NaN.
Proof.
  intros Hi Hj Hmiss. rewrite rolling_nth by exact Hi.
  destruct (S i <? period)%nat eqn:E; [reflexivity |].
  apply Nat.ltb_ge in E.
  assert (Hw : existsb no_observation (window period i xs) = true).
  { apply existsb_exists. exists (at_ xs j). split; [| exact Hmiss].
    rewrite window_eq by lia. apply in_map, in_seq. lia. }
  now rewrite Hw.
Qed.

(** X14: in the table [set_BB] returns, the moving average, the deviation
    and both bands of a row are missing when the row is one of the first
    20, and when one of the 21 closes that end at the row is missing or
    infinite. *)
Theorem bands_need_a_full_window env (df : DataFrame) (close : series) :
  assoc "close" df = Some (map CNum close) ->
  close <> [] ->
  exists tr out,
    set_BB env df 21 = (tr, Ok out) /\
    forall i, i < length close ->
      (i < 20 \/
       exists j, i - 20 <= j <= i /\ no_observation (at_ close j) = true) ->
      cell_at out "20MA" i = Some (CNum NaN) /\
      cell_at out "SD" i = Some (CNum NaN) /\
      cell_at out "upperband" i = Some (CNum NaN) /\
      cell_at out "lowerband" i = Some (CNum NaN).
Proof.
  intros Hclose Hne.
  destruct (set_BB_ok env df 21 close Hclose Hne) as (u0 & l0 & Hrun).
  do 2 eexists. split; [exact Hrun |].
  intros i Hi Hwhy.
  destruct (bb_frame_cells env df 21 close i) as (-> & -> & -> & ->).
  assert (Hnan : forall agg, nth_error (rolling agg 21 close) i = Some NaN).
  { intros agg. destruct Hwhy as [H20 | (j & Hj & Hmiss)].
    - apply rolling_prefix; [lia | exact Hi].
    - apply (rolling_missing agg 21 close i j Hi); [lia | exact Hmiss]. }
  unfold upper_series, lower_series, ma_series, sd_series.
  rewrite !zip_with_nth, !nth_error_map, !Hnan. repeat split.
Qed.

Lemma bands_need_a_full_window_witness :
  assoc "close" (candle_frame gap_close) = Some (map CNum gap_close) /\
  gap_close <> [] /\
  exists tr out,
    set_BB demo_env (candle_frame gap_close) 21 = (tr, Ok out) /\
    forall i, i < length gap_close ->
      (i < 20 \/
       exists j, i - 20 <= j <= i /\ no_observation (at_ gap_close j) = true) ->
      cell_at out "20MA" i = Some (CNum NaN) /\
      cell_at out "SD" i = Some (CNum NaN) /\
      cell_at out "upperband" i = Some (CNum NaN) /\
      cell_at out "lowerband" i = Some (CNum NaN).
Proof.
  assert (H1 : assoc "close" (candle_frame gap_close)
               = Some (map CNum gap_close)) by reflexivity.
  assert (H2 : gap_close <> []) by (vm_compute; discriminate).
  exact (conj H1 (conj H2
           (bands_need_a_full_window demo_env (candle_frame gap_close)
              gap_close H1 H2))).
Defined.

(* ================================================================= *)
(** * Further properties of the writer and of the driver *)



Lemma unknown_freq_lookup (freq : string) :
  ~ In freq ["min"; "hour"; "day"] -> assoc freq time_dict = None.
Proof.
  intros H. unfold time_dict. cbn [assoc].
  destruct (String.eqb "hour" freq) eqn:E1;
    [apply String.eqb_eq in E1; subst; exfalso; apply H; simpl; tauto |].
  destruct (String.eqb "min" freq) eqn:E2;
    [apply String.eqb_eq in E2; subst; exfalso; apply H; simpl; tauto |].
  destruct (String.eqb "day" freq) eqn:E3;
    [apply String.eqb_eq in E3; subst; exfalso; apply H; simpl; tauto |].
  reflexivity.
Qed.

(** X17: a frequency other than min, hour and day makes [download_data]
    raise [KeyError] before the first request, whatever the pairs are;
    without [--pairs] the script does nothing, whatever the frequency. *)
Theorem unknown_frequency_raises env (pairs : list string)
        (groups : list (list string)) (freq : string) :
  ~ In freq ["min"; "hour"; "day"] ->
  download_data env pairs freq = ([], Raise KeyError) /\
  main env (Some groups) freq = ([], Raise KeyError) /\
  main env None freq = ([], Ok tt).
Proof.
  intros H. pose proof (unknown_freq_lookup freq H) as Hnone.
  assert (Hd : forall ps, download_data env ps freq = ([], Raise KeyError))
    by (intros ps; unfold download_data; now rewrite Hnone).
  split; [apply Hd |]. split; [apply Hd | reflexivity].
Qed.

Lemma unknown_frequency_raises_witness :
  ~ In "week" ["min"; "hour"; "day"] /\
  download_data demo_env ["RAMP"] "week" = ([], Raise KeyError) /\
  main demo_env (Some [["RAMP"]; ["FLAT"]]) "week" = ([], Raise KeyError) /\
  main demo_env None "week" = ([], Ok tt).
Proof.
  assert (H : ~ In "week" ["min"; "hour"; "day"]).
  { simpl. intros [E | [E | [E | []]]]; discriminate. }
  exact (conj H (unknown_frequency_raises demo_env ["RAMP"]
                   [["RAMP"]; ["FLAT"]] "week" H)).
Defined.

(** ** What a run writes *)

Lemma emits_mono {A} (P Q : event -> Prop) (m : IO A) :
  (forall ev, P ev -> Q ev) -> emits_only P m -> emits_only Q m.
Proof. intros H. unfold emits_only. apply Forall_impl. exact H. Qed.

Lemma emits_for_each_in {A} (P : event -> Prop) (xs : list A)
      (body : A -> IO unit) :
  (forall x, In x xs -> emits_only P (body x)) ->
  emits_only P (for_each xs body).
Proof.
  intros H. induction xs as [| x xs IH]; simpl; [apply emits_ret |].
  apply emits_bind; [apply H; now left | intros _].
  apply IH. intros y Hy. apply H. now right.
Qed.

Lemma feature_engineering_prints env df :
  emits_only is_print (feature_engineering env df).
Proof.
  unfold feature_engineering.
  apply emits_bind; [unfold set_RSI; emits; exact I | intros d1].
  apply emits_bind; [unfold set_BB; emits; exact I | intros d2].
  apply emits_select.
Qed.

Lemma fill_requests env (dataset : DataFrame) (fname_ext : string) :
  emits_only is_request (fill_with_latest_data env dataset fname_ext).
Proof.
  unfold emits_only.
  destruct (remove_extension fname_ext) as [fname | e] eqn:E.
  - rewrite (fill_trace env dataset fname_ext fname E).
    constructor; [exact I | constructor].
  - unfold fill_with_latest_data. rewrite E. constructor.
Qed.

(** One pair makes its request, prints, and writes at most its own file. *)
Lemma process_pair_writes env (pair : string) :
  emits_only (writes_to (pair ++ extension)) (process_pair env pair).
Proof.
  unfold process_pair. apply emits_bind.
  - unfold clean_dataset.
    apply emits_bind.
    { eapply emits_mono; [| apply fill_requests]. now intros []. }
    intros d1. apply emits_bind.
    { eapply emits_mono; [| apply feature_engineering_prints]. now intros []. }
    intros d2. apply emits_bind.
    + apply emits_try.
      * apply emits_bind.
        { unfold to_csv. destruct (fs_write env _ _);
            [apply emits_emit; reflexivity | apply emits_raise]. }
        intros _. unfold log_success, print. emits. exact I.
      * unfold log_failure, print. emits. exact I.
    + intros [|]; apply emits_ret.
  - intros values. unfold show_graph. apply emits_ret.
Qed.

(** X18: whatever the exchange answers, a run writes no file but
    [<pair>.csv] for pairs of its list, and it never shows a plot. *)
Theorem run_writes_only_its_pairs env (pairs : list string) (freq : string) :
  emits_only (writes_for pairs) (download_data env pairs freq).
Proof.
  unfold download_data. apply emits_bind.
  - destruct (assoc freq time_dict); [apply emits_ret | apply emits_raise].
  - intros _. apply emits_for_each_in. intros p Hp.
    eapply emits_mono; [| apply process_pair_writes].
    intros [] H; try exact H; try exact I. now exists p.
Qed.

(** X19: for a symbol without a dot that the exchange answers with a
    non-empty array of records as it sends them, and a file that can be
    written, [clean_dataset] makes its request first, then only prints,
    then writes the CSV text of the table it returns and prints the
    success line; the table has the five columns, its unix and close
    columns being the candles of the answer. *)
Theorem clean_dataset_success env (p text : string) (records : list json)
        (txs : list (Z * fval)) :
  str_mem dot p = false ->
  http_text env (klines_url p) = Some text ->
  json_loads env text = Some (JArr records) ->
  Forall2 (candle_record env) records txs ->
  records <> [] ->
  (forall content, fs_write env (p ++ extension) content = true) ->
  exists tr out,
    clean_dataset env (p ++ extension)
    = ((Get (klines_url p) :: tr
          ++ [WriteFile (p ++ extension) (csv_text env out);
              PrintLine (log_success_text (p ++ extension))])%list,
       Ok (Some out)) /\
    Forall is_print tr /\
    columns out = ["unix"; "RSI"; "lowerband"; "upperband"; "close"] /\
    assoc "unix" out = Some (timestamps txs) /\
    assoc "close" out = Some (map CNum (closes txs)).
Proof.
  intros Hdot Hhttp Hjson Hrec Hne Hw.
  pose proof (fill_candles env p text records txs Hdot Hhttp Hjson Hrec)
    as Hfill.
  destruct Hrec as [| record tx records txs Hr Hrs]; [congruence |].
  set (all := tx :: txs) in *.
  assert (Hcl : closes all <> []) by discriminate.
  destruct (feature_engineering_ok env (candle_table (timestamps all)
                                           (closes all))
              (timestamps all) (closes all) eq_refl eq_refl Hcl) as [tr Hfe].
  pose proof (feature_engineering_prints env
                (candle_table (timestamps all) (closes all))) as Hpr.
  unfold emits_only in Hpr. rewrite Hfe in Hpr. cbn [fst] in Hpr.
  exists tr, (feature_frame env (timestamps all) (closes all)).
  split; [| now repeat split].
  unfold clean_dataset. rewrite Hfill, bind_ok. cbn [fst snd].
  change (match all with
          | [] => []
          | _ :: _ => candle_table (timestamps all) (closes all)
          end) with (candle_table (timestamps all) (closes all)).
  rewrite Hfe, bind_ok. cbn [fst snd].
  unfold to_csv. rewrite Hw. reflexivity.
Qed.

Lemma clean_dataset_success_witness :
  str_mem dot "BTCUSDT" = false /\
  http_text (quotes_env (JArr three_quotes)) (klines_url "BTCUSDT")
  = Some "answer" /\
  json_loads (quotes_env (JArr three_quotes)) "answer"
  = Some (JArr three_quotes) /\
  Forall2 (candle_record (quotes_env (JArr three_quotes)))
          three_quotes three_candles /\
  three_quotes <> [] /\
  (forall content,
      fs_write (quotes_env (JArr three_quotes)) ("BTCUSDT" ++ extension)
        content = true) /\
  exists tr out,
    clean_dataset (quotes_env (JArr three_quotes)) ("BTCUSDT" ++ extension)
    = ((Get (klines_url "BTCUSDT") :: tr
          ++ [WriteFile ("BTCUSDT" ++ extension)
                (csv_text (quotes_env (JArr three_quotes)) out);
              PrintLine (log_success_text ("BTCUSDT" ++ extension))])%list,
       Ok (Some out)) /\
    Forall is_print tr /\
    columns out = ["unix"; "RSI"; "lowerband"; "upperband"; "close"] /\
    assoc "unix" out = Some (timestamps three_candles) /\
    assoc "close" out = Some (map CNum (closes three_candles)).
Proof.
  assert (H0 : str_mem dot "BTCUSDT" = false) by reflexivity.
  assert (H1 : http_text (quotes_env (JArr three_quotes))
                 (klines_url "BTCUSDT") = Some "answer") by reflexivity.
  assert (H2 : json_loads (quotes_env (JArr three_quotes)) "answer"
               = Some (JArr three_quotes)) by reflexivity.
  pose proof (three_quotes_are_candles (JArr three_quotes)) as H3.
  assert (H4 : three_quotes <> []) by discriminate.
  assert (H5 : forall content,
             fs_write (quotes_env (JArr three_quotes))
               ("BTCUSDT" ++ extension) content = true)
    by (intros content; reflexivity).
  exact (conj H0 (conj H1 (conj H2 (conj H3 (conj H4 (conj H5
           (clean_dataset_success (quotes_env (JArr three_quotes)) "BTCUSDT"
              "answer" three_quotes three_candles
              H0 H1 H2 H3 H4 H5))))))).
Defined.

(** X20: when the file cannot be written, [clean_dataset] prints the
    failure line and returns [None]; [RSI_plot] and [BB_plot] would raise
    [TypeError] on that result. *)
Theorem failed_write_returns_none env (filename : string) t1 df t2 out :
  fill_with_latest_data env [] filename = (t1, Ok df) ->
  feature_engineering env df = (t2, Ok out) ->
  fs_write env filename (csv_text env out) = false ->
  clean_dataset env filename
  = ((t1 ++ t2 ++ [PrintLine (log_failure_text filename)])%list, Ok None) /\
  (values <- clean_dataset env filename ;; RSI_plot values)%py
  = ((t1 ++ t2 ++ [PrintLine (log_failure_text filename)])%list,
     Raise TypeError) /\
  (values <- clean_dataset env filename ;; BB_plot values)%py
  = ((t1 ++ t2 ++ [PrintLine (log_failure_text filename)])%list,
     Raise TypeError).
Proof.
  intros Hfill Hfe Hw.
  assert (Hc : clean_dataset env filename
               = ((t1 ++ t2 ++ [PrintLine (log_failure_text filename)])%list,
                  Ok None)).
  { unfold clean_dataset. rewrite Hfill, bind_ok. cbn [fst snd].
    rewrite Hfe, bind_ok. cbn [fst snd].
    unfold to_csv. rewrite Hw. reflexivity. }
  rewrite Hc. repeat split; simpl; now rewrite app_nil_r.
Qed.

Lemma failed_write_returns_none_witness :
  fill_with_latest_data demo_env [] "FLAT.csv"
  = ([Get (klines_url "FLAT")], Ok (candle_frame flat_close)) /\
  feature_engineering demo_env (candle_frame flat_close)
  = (fst (feature_engineering demo_env (candle_frame flat_close)),
     Ok (feature_frame demo_env
           (map (fun k => CNum (fin_nat k)) (seq 0 16)) flat_close)) /\
  fs_write demo_env "FLAT.csv"
    (csv_text demo_env
       (feature_frame demo_env
          (map (fun k => CNum (fin_nat k)) (seq 0 16)) flat_close))
  = false /\
  clean_dataset demo_env "FLAT.csv"
  = (([Get (klines_url "FLAT")]
        ++ fst (feature_engineering demo_env (candle_frame flat_close))
        ++ [PrintLine (log_failure_text "FLAT.csv")])%list, Ok None) /\
  (values <- clean_dataset demo_env "FLAT.csv" ;; RSI_plot values)%py
  = (([Get (klines_url "FLAT")]
        ++ fst (feature_engineering demo_env (candle_frame flat_close))
        ++ [PrintLine (log_failure_text "FLAT.csv")])%list,
     Raise TypeError) /\
  (values <- clean_dataset demo_env "FLAT.csv" ;; BB_plot values)%py
  = (([Get (klines_url "FLAT")]
        ++ fst (feature_engineering demo_env (candle_frame flat_close))
        ++ [PrintLine (log_failure_text "FLAT.csv")])%list,
     Raise TypeError).
Proof.
  assert (H1 : fill_with_latest_data demo_env [] "FLAT.csv"
               = ([Get (klines_url "FLAT")], Ok (candle_frame flat_close)))
    by (vm_compute; reflexivity).
  assert (H2 : feature_engineering demo_env (candle_frame flat_close)
               = (fst (feature_engineering demo_env (candle_frame flat_close)),
                  Ok (feature_frame demo_env
                        (map (fun k => CNum (fin_nat k)) (seq 0 16))
                        flat_close)))
    by (vm_compute; reflexivity).
  assert (H3 : fs_write demo_env "FLAT.csv"
                 (csv_text demo_env
                    (feature_frame demo_env
                       (map (fun k => CNum (fin_nat k)) (seq 0 16))
                       flat_close))
               = false) by reflexivity.
  exact (conj H1 (conj H2 (conj H3
           (failed_write_returns_none demo_env "FLAT.csv" _ _ _ _ H1 H2 H3)))).
Defined.

Lemma feature_engineering_shape env (df : DataFrame) tr out :
  feature_engineering env df = (tr, Ok out) ->
  exists a b c d e,
    out = [("unix", a); ("RSI", b); ("lowerband", c); ("upperband", d);
           ("close", e)].
Proof.
  unfold feature_engineering, bind.
  destruct (set_RSI df 14) as [t1 [d1 | e1]]; [| discriminate].
  destruct (set_BB env d1 21) as [t2 [d2 | e2]]; [| discriminate].
  unfold output_columns, select, getitem, bind, ret, raise.
  destruct (assoc "unix" d2); [| discriminate].
  destruct (assoc "RSI" d2); [| discriminate].
  destruct (assoc "lowerband" d2); [| discriminate].
  destruct (assoc "upperband" d2); [| discriminate].
  destruct (assoc "close" d2); [| discriminate].
  simpl. intros H. inversion H. eauto 10.
Qed.

(** X21: every table [feature_engineering] returns can be plotted:
    [RSI_plot] draws its RSI column, [BB_plot] its lowerband, upperband
    and close columns, and neither raises. *)
Theorem plots_accept_the_table env (df : DataFrame) tr out :
  feature_engineering env df = (tr, Ok out) ->
  exists rsi lower upper close,
    assoc "RSI" out = Some rsi /\
    assoc "lowerband" out = Some lower /\
    assoc "upperband" out = Some upper /\
    assoc "close" out = Some close /\
    RSI_plot (Some out) = ([Plot [("RSI", rsi)]], Ok tt) /\
    BB_plot (Some out)
    = ([Plot [("Lower", lower); ("Upper", upper); ("Value", close)]], Ok tt).
Proof.
  intros H.
  destruct (feature_engineering_shape env df tr out H)
    as (a & b & c & d & e & ->).
  exists b, c, d, e. repeat split.
Qed.

Lemma plots_accept_the_table_witness :
  feature_engineering demo_env (candle_frame flat_close)
  = (fst (feature_engineering demo_env (candle_frame flat_close)),
     Ok (feature_frame demo_env
           (map (fun k => CNum (fin_nat k)) (seq 0 16)) flat_close)) /\
  exists rsi lower upper close,
    assoc "RSI" (feature_frame demo_env
                   (map (fun k => CNum (fin_nat k)) (seq 0 16)) flat_close)
    = Some rsi /\
    assoc "lowerband" (feature_frame demo_env
                   (map (fun k => CNum (fin_nat k)) (seq 0 16)) flat_close)
    = Some lower /\
    assoc "upperband" (feature_frame demo_env
                   (map (fun k => CNum (fin_nat k)) (seq 0 16)) flat_close)
    = Some upper /\
    assoc "close" (feature_frame demo_env
                   (map (fun k => CNum (fin_nat k)) (seq 0 16)) flat_close)
    = Some close /\
    RSI_plot (Some (feature_frame demo_env
                   (map (fun k => CNum (fin_nat k)) (seq 0 16)) flat_close))
    = ([Plot [("RSI", rsi)]], Ok tt) /\
    BB_plot (Some (feature_frame demo_env
                   (map (fun k => CNum (fin_nat k)) (seq 0 16)) flat_close))
    = ([Plot [("Lower", lower); ("Upper", upper); ("Value", close)]], Ok tt).
Proof.
  assert (H : feature_engineering demo_env (candle_frame flat_close)
              = (fst (feature_engineering demo_env (candle_frame flat_close)),
                 Ok (feature_frame demo_env
                       (map (fun k => CNum (fin_nat k)) (seq 0 16))
                       flat_close)))
    by (vm_compute; reflexivity).
  exact (conj H (plots_accept_the_table demo_env _ _ _ H)).
Defined.

Lemma download_data_completes env (pairs : list string) (freq : string) t :
  download_data env pairs freq = (t, Ok tt) ->
  forall ps, download_data env ps freq = for_each ps (process_pair env).
Proof.
  intros H ps. unfold download_data in *.
  destruct (assoc freq time_dict); [now rewrite bind_ret_l | discriminate].
Qed.

(** X22: the pairs are processed one after the other: when the run over
    a first list of pairs completes, the run over that list followed by
    more pairs is that run followed by the run over the other pairs. *)
Theorem pairs_run_one_after_the_other env (pre post : list string)
        (freq : string) t0 :
  download_data env pre freq = (t0, Ok tt) ->
  download_data env (pre ++ post) freq
  = ((t0 ++ fst (download_data env post freq))%list,
     snd (download_data env post freq)).
Proof.
  intros H. pose proof (download_data_completes env pre freq t0 H) as Hd.
  rewrite Hd in H. rewrite !Hd. now apply for_each_app.
Qed.

Lemma pairs_run_one_after_the_other_witness :
  download_data demo_env ["RAMP"; "FLAT"] "min"
  = (fst (download_data demo_env ["RAMP"; "FLAT"] "min"), Ok tt) /\
  download_data demo_env (["RAMP"; "FLAT"] ++ ["RAMP"]) "min"
  = ((fst (download_data demo_env ["RAMP"; "FLAT"] "min")
        ++ fst (download_data demo_env ["RAMP"] "min"))%list,
     snd (download_data demo_env ["RAMP"] "min")).
Proof.
  assert (H : download_data demo_env ["RAMP"; "FLAT"] "min"
              = (fst (download_data demo_env ["RAMP"; "FLAT"] "min"), Ok tt))
    by (vm_compute; reflexivity).
  exact (conj H (pairs_run_one_after_the_other demo_env ["RAMP"; "FLAT"]
                   ["RAMP"] "min" _ H)).
Defined.

(** X23: an exception of the fetch of one pair, after pairs that
    completed, leaves [download_data] as it is: nothing is printed for
    that pair, no file is written for it, and the pairs after it are
    never requested. *)
Theorem fetch_exception_ends_the_run env (pre rest : list string)
        (p freq : string) t0 t (e : exn) :
  download_data env pre freq = (t0, Ok tt) ->
  fill_with_latest_data env [] (p ++ extension) = (t, Raise e) ->
  download_data env (pre ++ p :: rest) freq = ((t0 ++ t)%list, Raise e).
Proof.
  intros Hpre Hfill.
  pose proof (download_data_completes env pre freq t0 Hpre) as Hd.
  rewrite Hd in Hpre. rewrite Hd.
  rewrite (for_each_app _ pre (p :: rest) t0 Hpre).
  assert (Hp : process_pair env p = (t, Raise e))
    by (unfold process_pair, clean_dataset; now rewrite Hfill).
  now rewrite (for_each_raise _ p rest t e Hp).
Qed.

Lemma fetch_exception_ends_the_run_witness :
  download_data demo_env ["RAMP"] "min"
  = (fst (download_data demo_env ["RAMP"] "min"), Ok tt) /\
  fill_with_latest_data demo_env [] ("HTML" ++ extension)
  = ([Get (klines_url "HTML")], Raise JSONDecodeError) /\
  download_data demo_env (["RAMP"] ++ "HTML" :: ["FLAT"]) "min"
  = ((fst (download_data demo_env ["RAMP"] "min")
        ++ [Get (klines_url "HTML")])%list,
     Raise JSONDecodeError).
Proof.
  assert (H1 : download_data demo_env ["RAMP"] "min"
               = (fst (download_data demo_env ["RAMP"] "min"), Ok tt))
    by (vm_compute; reflexivity).
  assert (H2 : fill_with_latest_data demo_env [] ("HTML" ++ extension)
               = ([Get (klines_url "HTML")], Raise JSONDecodeError))
    by (vm_compute; reflexivity).
  exact (conj H1 (conj H2
           (fetch_exception_ends_the_run demo_env ["RAMP"] ["FLAT"] "HTML"
              "min" _ _ _ H1 H2))).
Defined.

(** ** The RSI of a window that holds a missing or an infinite close *)

Lemma fsub_unobserved (x y : fval) :
  no_observation x = true \/ no_observation y = true ->
  no_observation (fsub x y) = true.
Proof.
  destruct x, y; simpl; intros [H | H]; try reflexivity; discriminate.
Qed.

Lemma gain_or_loss_unobserved (d : fval) :
  no_observation d = true ->
  no_observation (up_of d) = true \/ no_observation (down_of d) = true.
Proof.
  destruct d; try discriminate; intros _;
    [left | right | left]; reflexivity.
Qed.

Lemma fdiv_nan_r (x : fval) : fdiv x NaN = NaN.
Proof. now destruct x. Qed.

Lemma at_in_range (xs : series) (i : nat) (x : fval) :
  nth_error xs i = Some x -> at_ xs i = x.
Proof. apply nth_error_nth. Qed.

(** X24: in the table [set_RSI] returns, the RSI of a row [i >= 14] is
    missing when one of the 15 closes [i-14 .. i] is missing or
    infinite. *)
Theorem rsi_needs_finite_closes (df : DataFrame) (close : series) :
  assoc "close" df = Some (map CNum close) ->
  close <> [] ->
  exists tr out,
    set_RSI df 14 = (tr, Ok out) /\
    forall i j,
      14 <= i -> i < length close ->
      i - 14 <= j <= i ->
      no_observation (at_ close j) = true ->
      cell_at out "RSI" i = Some (CNum NaN).
Proof.
  intros Hclose Hne.
  destruct (set_RSI_ok df 14 close Hclose Hne) as [v Hrun].
  do 2 eexists. split; [exact Hrun |].
  intros i j H14 Hi Hj Hmiss.
  (* a difference of the window that is missing or infinite *)
  assert (Hk : exists k, i - 14 <= k < i /\
                         no_observation (at_ (diff close) (S k)) = true).
  { destruct (Nat.eq_dec j (i - 14)) as [-> | Hneq].
    - exists (i - 14). split; [lia |].
      rewrite (at_in_range _ _ _ (diff_nth close (S (i - 14)) ltac:(lia))).
      apply fsub_unobserved. now right.
    - destruct j as [| k]; [lia |]. exists k. split; [lia |].
      rewrite (at_in_range _ _ _ (diff_nth close (S k) ltac:(lia))).
      apply fsub_unobserved. now left. }
  destruct Hk as (k & Hk & Hd).
  assert (Hlen : S k < length (diff close)) by (rewrite diff_length; lia).
  pose proof (nth_error_at (diff close) (S k) Hlen) as Hdk.
  rewrite rsi_frame_RSI, rsi_series_nth, rs_series_nth.
  unfold avg_up_series, avg_down_series.
  destruct (gain_or_loss_unobserved _ Hd) as [Hup | Hdown].
  - rewrite (rolling_missing mean 14 (up_series close) i (S k)).
    + rewrite rolling_nth by (rewrite down_series_length; exact Hi).
      reflexivity.
    + now rewrite up_series_length.
    + lia.
    + rewrite (at_in_range (up_series close) (S k) (up_of (at_ (diff close) (S k))));
        [exact Hup |].
      now rewrite up_series_nth, Hdk.
  - rewrite (rolling_missing mean 14 (down_series close) i (S k)).
    + rewrite rolling_nth by (rewrite up_series_length; exact Hi).
      cbn [option_map]. now rewrite fdiv_nan_r.
    + now rewrite down_series_length.
    + lia.
    + rewrite (at_in_range (down_series close) (S k)
                 (down_of (at_ (diff close) (S k)))); [exact Hdown |].
      now rewrite down_series_nth, Hdk.
Qed.

Lemma rsi_needs_finite_closes_witness :
  assoc "close" (candle_frame gap_close) = Some (map CNum gap_close) /\
  gap_close <> [] /\
  exists tr out,
    set_RSI (candle_frame gap_close) 14 = (tr, Ok out) /\
    forall i j,
      14 <= i -> i < length gap_close ->
      i - 14 <= j <= i ->
      no_observation (at_ gap_close j) = true ->
      cell_at out "RSI" i = Some (CNum NaN).
Proof.
  assert (H1 : assoc "close" (candle_frame gap_close)
               = Some (map CNum gap_close)) by reflexivity.
  assert (H2 : gap_close <> []) by (vm_compute; discriminate).
  exact (conj H1 (conj H2
           (rsi_needs_finite_closes (candle_frame gap_close) gap_close
              H1 H2))).
Defined.
